(** * BinanceBot: order validation, submission and account views

    A shallow embedding of [src/binance_bot.py] (class [BinanceBot]) and the
    properties of its order-request layer.

    Conventions of the model.
    - Python values that travel through the bot (request parameters and the
      JSON replies of the exchange) are terms of [value]; a [dict] with string
      keys is a [gmap string value], whose equality is Python's dict equality.
    - Python [float] is IEEE-754 binary64, i.e. Rocq's primitive [float];
      comparisons with [0] are [PrimFloat.leb], [PrimFloat.ltb], [PrimFloat.eqb].
    - Text is ASCII text ([string]); [upper] is [str.upper] on it.
    - The exchange client is an interface over an abstract world state; every
      call of the client and every log record is an [event] of the trace of
      the operation, in program order.
    - A raised exception is the [Raise] outcome of a computation; [try_except]
      is the [try: ... except ...:] statement. *)

From Stdlib Require Import ZArith Uint63 Floats.PrimFloat Ascii String.
From stdpp Require Import base option list gmap strings.

Local Open Scope string_scope.
Local Open Scope list_scope.
Local Open Scope Z_scope.
#[local] Set Warnings "-inexact-float".

(** ** Python values *)

Local Unset Elimination Schemes.
Inductive value : Type :=
| VNone
| VBool (b : bool)
| VInt (n : Z)
| VFloat (f : float)
| VStr (s : string)
| VList (l : list value)
| VDict (d : gmap string value).
Local Set Elimination Schemes.

(** Exceptions the bot can observe. The two Binance classes are those of the
    [binance.exceptions] module: an API exception carries the HTTP
    [status_code] of the reply and the [code] and [message] of the error
    payload of the exchange. All of them derive from [Exception]. *)
Inductive exn : Type :=
| BinanceAPIException (status_code : Z) (code : Z) (message : string)
| BinanceRequestException (message : string)
| KeyError (key : string)
| TypeError (message : string)
| ValueError (message : string)
| AttributeError (message : string)
| OtherException (message : string).

Inductive outcome (A : Type) : Type :=
| Ok (a : A)
| Raise (e : exn).
Arguments Ok {A} a.
Arguments Raise {A} e.

(** ** Strings *)

Definition upper_ascii (c : ascii) : ascii :=
  let n := N_of_ascii c in
  if ((97 <=? n) && (n <=? 122))%N then ascii_of_N (n - 32) else c.

Fixpoint upper (s : string) : string :=
  match s with
  | EmptyString => EmptyString
  | String c r => String (upper_ascii c) (upper r)
  end.

Fixpoint chars (s : string) : list string :=
  match s with
  | EmptyString => []
  | String c r => String c EmptyString :: chars r
  end.

Fixpoint is_substring (k s : string) : bool :=
  String.prefix k s ||
  match s with
  | EmptyString => false
  | String _ r => is_substring k r
  end.

(** ** Built-in operations on values *)

(** [v[k]] for a string key [k]. *)
Definition py_subscript (v : value) (k : string) : outcome value :=
  match v with
  | VDict d =>
      match d !! k with
      | Some x => Ok x
      | None => Raise (KeyError k)
      end
  | VList _ => Raise (TypeError "list indices must be integers or slices, not str")
  | VStr _ => Raise (TypeError "string indices must be integers, not 'str'")
  | _ => Raise (TypeError "object is not subscriptable")
  end.

(** [v.get(k, default)]. *)
Definition py_get (v : value) (k : string) (dflt : value) : outcome value :=
  match v with
  | VDict d => Ok (default dflt (d !! k))
  | _ => Raise (AttributeError "object has no attribute 'get'")
  end.

(** The elements a [for] clause draws from [v]; a dict yields its keys. *)
Definition py_iter (v : value) : outcome (list value) :=
  match v with
  | VList l => Ok l
  | VDict d => Ok (VStr <$> (map_to_list d).*1)
  | VStr s => Ok (VStr <$> chars s)
  | _ => Raise (TypeError "object is not iterable")
  end.

(** [k in v] for a string [k]: key of a dict, element of a list, substring
    of a string. *)
Definition py_contains_key (k : string) (v : value) : outcome bool :=
  match v with
  | VDict d => Ok (bool_decide (is_Some (d !! k)))
  | VList l =>
      Ok (existsb (λ x, match x with VStr t => bool_decide (k = t) | _ => false end) l)
  | VStr s => Ok (is_substring k s)
  | _ => Raise (TypeError "argument is not iterable")
  end.

(** ** Exceptions as outcomes *)

Global Instance outcome_ret : MRet outcome := λ A a, Ok a.
Global Instance outcome_bind : MBind outcome := λ A B f m,
  match m with
  | Ok a => f a
  | Raise e => Raise e
  end.

(** ** Observable behaviour: log records and client calls *)

Inductive level : Type := INFO | WARNING | ERROR.

(** A log message is kept as the pieces of its f-string. *)
Inductive piece : Type :=
| Lit (s : string)
| Fmt (v : value)
| Json (v : value)
| StrExn (e : exn).

Inductive api_call : Type :=
| FuturesExchangeInfo
| FuturesCreateOrder (params : gmap string value)
| FuturesAccount
| FuturesPositionInformation (symbol : option string).

Inductive event : Type :=
| Log (lv : level) (msg : list piece)
| Call (c : api_call).

(** The requests handed to [futures_create_order] along a trace. *)
Fixpoint submitted (t : list event) : list (gmap string value) :=
  match t with
  | [] => []
  | Call (FuturesCreateOrder p) :: r => p :: submitted r
  | _ :: r => submitted r
  end.

(** ** The exchange client

    [self.client]: each method answers with a value or raises, and may change
    the state of the world it talks to. *)
Record Client (World : Type) : Type := {
  futures_exchange_info : World → outcome value * World;
  futures_create_order : gmap string value → World → outcome value * World;
  futures_account : World → outcome value * World;
  futures_position_information : option string → World → outcome value * World
}.
Arguments futures_exchange_info {World} _ _.
Arguments futures_create_order {World} _ _ _.
Arguments futures_account {World} _ _.
Arguments futures_position_information {World} _ _ _.

(** ** Computations of the bot *)

Record run (World A : Type) : Type := Run {
  result : outcome A;
  trace : list event;
  final : World
}.
Arguments Run {World A} _ _ _.
Arguments result {World A} _.
Arguments trace {World A} _.
Arguments final {World A} _.

Definition M (World A : Type) : Type := World → run World A.

Global Instance M_ret {World} : MRet (M World) := λ A a w, Run (Ok a) [] w.
Global Instance M_bind {World} : MBind (M World) := λ A B f m w,
  match m w with
  | Run (Ok a) t w' =>
      match f a w' with
      | Run o t' w'' => Run o (t ++ t') w''
      end
  | Run (Raise e) t w' => Run (Raise e) t w'
  end.

Definition lift {World A} (o : outcome A) : M World A := λ w, Run o [] w.

Definition emit {World} (lv : level) (msg : list piece) : M World unit :=
  λ w, Run (Ok ()) [Log lv msg] w.

Definition invoke {World} (c : api_call) (f : World → outcome value * World)
  : M World value :=
  λ w, let '(o, w') := f w in Run o [Call c] w'.

(** [try: body except ...: handler]; the handler receives the exception. *)
Definition try_except {World A} (body : M World A) (handler : exn → M World A)
  : M World A :=
  λ w, match body w with
       | Run (Ok a) t w' => Run (Ok a) t w'
       | Run (Raise e) t w' =>
           match handler e w' with
           | Run o t' w'' => Run o (t ++ t') w''
           end
       end.

(** [x in l] when [x] is a string: [==] holds with equal strings only. *)
Definition str_in (x : string) (l : list value) : bool :=
  existsb (λ v, match v with VStr t => bool_decide (x = t) | _ => false end) l.

(** [[s['symbol'] for s in exchange_info['symbols']]]. *)
Definition listed_symbols (exchange_info : value) : outcome (list value) :=
  listing ← py_subscript exchange_info "symbols";
  entries ← py_iter listing;
  mapM (λ s, py_subscript s "symbol") entries.

(** ** Log messages *)

Definition msg_invalid_side_bs (side : string) : list piece :=
  [Lit "Invalid side: "; Fmt (VStr side); Lit ". Must be BUY or SELL"].
Definition msg_invalid_side (side : string) : list piece :=
  [Lit "Invalid side: "; Fmt (VStr side)].
Definition msg_invalid_Symbol (symbol : string) : list piece :=
  [Lit "Invalid Symbol: "; Fmt (VStr symbol)].
Definition msg_invalid_symbol (symbol : string) : list piece :=
  [Lit "Invalid symbol: "; Fmt (VStr symbol)].
Definition msg_invalid_quantity_market (quantity : float) : list piece :=
  [Lit "Invalid quantity: "; Fmt (VFloat quantity); Lit ". Must be above 0."].
Definition msg_invalid_quantity_limit (quantity : float) : list piece :=
  [Lit "Invalid quantity: "; Fmt (VFloat quantity); Lit ". Must be above 0"].
Definition msg_invalid_price (price : float) : list piece :=
  [Lit "Invalid price: "; Fmt (VFloat price); Lit ". Must be above 0"].
Definition msg_invalid_time_in_force (time_in_force : string) : list piece :=
  [Lit "Invalid time_in_force: "; Fmt (VStr time_in_force)].
Definition msg_api_error (status_code : Z) (message : string) : list piece :=
  [Lit "Binance API Error: "; Fmt (VInt status_code); Lit " - "; Fmt (VStr message)].
Definition msg_request_error (e : exn) : list piece :=
  [Lit "Binance Request Error: "; StrExn e].
Definition msg_symbol_verification_failed : list piece :=
  [Lit "Verification of input symbol failed: {str(e)}"].

(** ** class BinanceBot *)

Section BinanceBot.
Context {World : Type}.
(** [self.client]. *)
Variable client : Client World.
(** The built-in [float(x)]: the number [x] denotes, or the exception that
    [float] raises ([ValueError], [TypeError], [OverflowError]). *)
Variable py_float : value → outcome float.

Definition _validate_symbol (symbol : string) : M World bool :=
  try_except
    (exchange_info ← invoke FuturesExchangeInfo (futures_exchange_info client);
     symbols ← lift (listed_symbols exchange_info);
     mret (str_in (upper symbol) symbols))
    (λ _, emit ERROR msg_symbol_verification_failed;; mret false).

Definition _log_request (order_type : string) (params : gmap string value)
  : M World unit :=
  emit INFO [Lit "API Request - Order type: "; Fmt (VStr order_type)];;
  emit INFO [Lit "Params: "; Json (VDict params)].

Definition _log_response (response : value) : M World unit :=
  emit INFO [Lit "API Response: "; Json response].

Definition market_params (symbol side : string) (quantity : float)
  : gmap string value :=
  <["symbol" := VStr symbol]>
    (<["side" := VStr side]>
       (<["type" := VStr "MARKET"]>
          (<["quantity" := VFloat quantity]> ∅))).

Definition place_market_order (symbol side : string) (quantity : float)
  : M World (option value) :=
  let side := upper side in
  let symbol := upper symbol in
  if negb (bool_decide (side ∈ ["BUY"; "SELL"])) then
    emit ERROR (msg_invalid_side_bs side);; mret None
  else
    valid ← _validate_symbol symbol;
    if negb valid then
      emit ERROR (msg_invalid_Symbol symbol);; mret None
    else if (quantity <=? 0)%float then
      emit ERROR (msg_invalid_quantity_market quantity);; mret None
    else
      let params := market_params symbol side quantity in
      try_except
        (_log_request "MARKET" params;;
         order ← invoke (FuturesCreateOrder params)
                        (futures_create_order client params);
         _log_response order;;
         emit INFO [Lit "Market order is placed."];;
         order_id ← lift (py_subscript order "orderId");
         emit INFO [Lit "Order ID: "; Fmt order_id];;
         status ← lift (py_subscript order "status");
         emit INFO [Lit "Status: "; Fmt status];;
         mret (Some order))
        (λ e,
           match e with
           | BinanceAPIException status_code _ message =>
               emit ERROR (msg_api_error status_code message);; mret None
           | BinanceRequestException _ =>
               emit ERROR (msg_request_error e);; mret None
           | _ =>
               emit ERROR
                 [Lit "Unexpected error occured while placing market order: ";
                  StrExn e];;
               mret None
           end).

Definition limit_params (symbol side : string) (quantity price : float)
    (time_in_force : string) : gmap string value :=
  <["symbol" := VStr symbol]>
    (<["side" := VStr side]>
       (<["type" := VStr "LIMIT"]>
          (<["quantity" := VFloat quantity]>
             (<["price" := VFloat price]>
                (<["timeInForce" := VStr time_in_force]> ∅))))).

Definition place_limit_order (symbol side : string) (quantity price : float)
    (time_in_force : string) : M World (option value) :=
  let side := upper side in
  let symbol := upper symbol in
  let time_in_force := upper time_in_force in
  if negb (bool_decide (side ∈ ["BUY"; "SELL"])) then
    emit ERROR (msg_invalid_side_bs side);; mret None
  else
    valid ← _validate_symbol symbol;
    if negb valid then
      emit ERROR (msg_invalid_symbol symbol);; mret None
    else if (quantity <=? 0)%float then
      emit ERROR (msg_invalid_quantity_limit quantity);; mret None
    else if (price <=? 0)%float then
      emit ERROR (msg_invalid_price price);; mret None
    else if negb (bool_decide (time_in_force ∈ ["GTC"; "IOC"; "FOK"])) then
      emit ERROR (msg_invalid_time_in_force time_in_force);; mret None
    else
      let params := limit_params symbol side quantity price time_in_force in
      try_except
        (_log_request "LIMIT" params;;
         order ← invoke (FuturesCreateOrder params)
                        (futures_create_order client params);
         _log_response order;;
         emit INFO [Lit "Limit order has been placed"];;
         order_id ← lift (py_subscript order "orderId");
         emit INFO [Lit "Order ID: "; Fmt order_id];;
         status ← lift (py_subscript order "status");
         emit INFO [Lit "Status: "; Fmt status];;
         mret (Some order))
        (λ e,
           match e with
           | BinanceAPIException status_code _ message =>
               emit ERROR (msg_api_error status_code message);; mret None
           | BinanceRequestException _ =>
               emit ERROR (msg_request_error e);; mret None
           | _ =>
               emit ERROR [Lit "Unexpected error placing limit order: "; StrExn e];;
               mret None
           end).

Definition stop_limit_params (symbol side : string)
    (quantity stop_price limit_price : float) (time_in_force : string)
  : gmap string value :=
  <["symbol" := VStr symbol]>
    (<["side" := VStr side]>
       (<["type" := VStr "STOP"]>
          (<["quantity" := VFloat quantity]>
             (<["price" := VFloat limit_price]>
                (<["stopPrice" := VFloat stop_price]>
                   (<["timeInForce" := VStr time_in_force]> ∅)))))).

Definition place_stop_limit_order (symbol side : string)
    (quantity stop_price limit_price : float) (time_in_force : string)
  : M World (option value) :=
  let side := upper side in
  let symbol := upper symbol in
  let time_in_force := upper time_in_force in
  if negb (bool_decide (side ∈ ["BUY"; "SELL"])) then
    emit ERROR (msg_invalid_side side);; mret None
  else
    valid ← _validate_symbol symbol;
    if negb valid then
      emit ERROR (msg_invalid_symbol symbol);; mret None
    else
      let params :=
        stop_limit_params symbol side quantity stop_price limit_price
                          time_in_force in
      try_except
        (_log_request "STOP_LIMIT" params;;
         order ← invoke (FuturesCreateOrder params)
                        (futures_create_order client params);
         _log_response order;;
         emit INFO [Lit "Stop-limit order placed successfully"];;
         has_order_id ← lift (py_contains_key "orderId" order);
         (if has_order_id : bool then
            order_id ← lift (py_subscript order "orderId");
            emit INFO [Lit "Order ID: "; Fmt order_id]
          else
            has_algo_id ← lift (py_contains_key "algoId" order);
            if has_algo_id : bool then
              algo_id ← lift (py_subscript order "algoId");
              emit INFO [Lit "Algo ID: "; Fmt algo_id]
            else
              emit WARNING [Lit "Order placed but no orderId/algoId returned"]);;
         mret (Some order))
        (λ e,
           emit ERROR [Lit "Error placing stop-limit order: "; StrExn e];;
           mret None).

(** The comprehension of [get_account_balance]: the filter is evaluated
    first, the entry is built when it holds. *)
Fixpoint positive_assets (assets : list value) : outcome (list value) :=
  match assets with
  | [] => Ok []
  | asset :: rest =>
      wallet ← py_subscript asset "walletBalance";
      amount ← py_float wallet;
      if (0 <? amount)%float then
        name ← py_subscript asset "asset";
        balance ← py_subscript asset "walletBalance";
        available ← py_subscript asset "availableBalance";
        others ← positive_assets rest;
        mret (VDict (<["asset" := name]>
                       (<["balance" := balance]>
                          (<["available" := available]> ∅))) :: others)
      else positive_assets rest
  end.

Definition get_account_balance : M World (option value) :=
  try_except
    (account ← invoke FuturesAccount (futures_account client);
     total ← lift (py_get account "totalWalletBalance" VNone);
     available ← lift (py_get account "availableBalance" VNone);
     listed ← lift (py_get account "assets" (VList []));
     entries ← lift (py_iter listed);
     assets ← lift (positive_assets entries);
     emit INFO [Lit "Account balance has been retrieved."];;
     mret (Some (VDict (<["totalWalletBalance" := total]>
                          (<["availableBalance" := available]>
                             (<["assets" := VList assets]> ∅))))))
    (λ e, emit ERROR [Lit "Error getting account balance: "; StrExn e];;
          mret None).

(** The comprehension of [get_position_info]. *)
Fixpoint active_positions (positions : list value) : outcome (list value) :=
  match positions with
  | [] => Ok []
  | p :: rest =>
      raw ← py_subscript p "positionAmt";
      amount ← py_float raw;
      others ← active_positions rest;
      mret (if (amount =? 0)%float then others else p :: others)
  end.

Definition get_position_info (symbol : option string)
  : M World (option (list value)) :=
  try_except
    (let scope :=
       match symbol with
       | Some s => if bool_decide (s = "") then None else Some (upper s)
       | None => None
       end in
     positions ← invoke (FuturesPositionInformation scope)
                        (futures_position_information client scope);
     entries ← lift (py_iter positions);
     active ← lift (active_positions entries);
     emit INFO [Lit "Retrieved "; Fmt (VInt (Z.of_nat (length active)));
                Lit " active positions"];;
     mret (Some active))
    (λ e, emit ERROR [Lit "Error getting position info: "; StrExn e];;
          mret None).

End BinanceBot.

(** ** A scripted exchange

    A client whose world is the script of its replies; the concrete runs
    below are made against it. *)

Record script : Type := {
  exchange_info_reply : outcome value;
  create_order_reply : gmap string value → outcome value;
  account_reply : outcome value;
  position_reply : option string → outcome value
}.

Definition scripted : Client script := {|
  futures_exchange_info w := (exchange_info_reply w, w);
  futures_create_order params w := (create_order_reply w params, w);
  futures_account w := (account_reply w, w);
  futures_position_information symbol w := (position_reply w symbol, w)
|}.

Definition symbol_entry (name : string) : value :=
  VDict (<["symbol" := VStr name]> (<["status" := VStr "TRADING"]> ∅)).

Definition catalog : value :=
  VDict (<["timezone" := VStr "UTC"]>
           (<["symbols" := VList [symbol_entry "BTCUSDT"; symbol_entry "ETHUSDT"]]> ∅)).

(** The exchange acknowledges an order by echoing it with an id and a status. *)
Definition acknowledge (params : gmap string value) : outcome value :=
  Ok (VDict (<["orderId" := VInt 4051]> (<["status" := VStr "NEW"]> params))).

Definition asset_entry (name wallet available : string) : value :=
  VDict (<["asset" := VStr name]>
           (<["walletBalance" := VStr wallet]>
              (<["availableBalance" := VStr available]> ∅))).

Definition account : value :=
  VDict (<["totalWalletBalance" := VStr "15000.00000000"]>
           (<["availableBalance" := VStr "14250.50000000"]>
              (<["assets" :=
                   VList [asset_entry "USDT" "15000.00000000" "14250.50000000";
                          asset_entry "BNB" "0.00000000" "0.00000000";
                          asset_entry "BTC" "0.00120000" "0.00120000"]]> ∅))).

Definition position_entry (name amount entry : string) : value :=
  VDict (<["symbol" := VStr name]>
           (<["positionAmt" := VStr amount]>
              (<["entryPrice" := VStr entry]>
                 (<["unRealizedProfit" := VStr "0.00000000"]> ∅)))).

Definition open_positions : value :=
  VList [position_entry "BTCUSDT" "0.010" "64000.0";
         position_entry "ETHUSDT" "0.000" "0.0";
         position_entry "BNBUSDT" "-2.50" "590.1"].

Definition testnet : script := {|
  exchange_info_reply := Ok catalog;
  create_order_reply := acknowledge;
  account_reply := Ok account;
  position_reply := λ _, Ok open_positions
|}.

(** The exchange refuses every order with the error payload
    [{code, msg: "Margin is insufficient"}] under HTTP status 400. *)
Definition rejecting (code : Z) : script := {|
  exchange_info_reply := Ok catalog;
  create_order_reply :=
    λ _, Raise (BinanceAPIException 400 code "Margin is insufficient");
  account_reply := Ok account;
  position_reply := λ _, Ok open_positions
|}.


(** The exchange accepts the order and answers with an [algoId] only. *)
Definition algo_reply : gmap string value :=
  <["algoId" := VInt 9001]> (<["status" := VStr "NEW"]> ∅).

Definition terse : script := {|
  exchange_info_reply := Ok catalog;
  create_order_reply := λ _, Ok (VDict algo_reply);
  account_reply := Ok account;
  position_reply := λ _, Ok open_positions
|}.

(** The catalogue cannot be fetched. *)
Definition offline : script := {|
  exchange_info_reply := Raise (OtherException "Connection timed out");
  create_order_reply := acknowledge;
  account_reply := Raise (OtherException "Connection timed out");
  position_reply := λ _, Raise (OtherException "Connection timed out")
|}.

(** [float] on floats and on plain decimal literals [[-]ddd[.ddd]] of at most
    15 digits: there [N / 10^k] is one correctly rounded division of two
    exactly represented numbers, which is the value [float] returns. Other
    arguments are answered with an exception and are not used below. *)
Fixpoint digits (s : string) (acc : Z) (frac : option nat) : option (Z * nat) :=
  match s with
  | EmptyString => Some (acc, default 0%nat frac)
  | String c r =>
      let n := Z.of_N (N_of_ascii c) in
      if (48 <=? n) && (n <=? 57) then
        digits r (10 * acc + (n - 48)) (S <$> frac)
      else if bool_decide (c = "."%char) then
        match frac with
        | None => digits r acc (Some 0%nat)
        | Some _ => None
        end
      else None
  end.

Definition decimal (s : string) : option float :=
  let '(negative, body) :=
    match s with
    | String "-" r => (true, r)
    | _ => (false, s)
    end in
  if bool_decide (body = "" ∨ body = ".") then None
  else
    '(n, k) ← digits body 0 None;
    if (n <? 10 ^ 15) && (Z.of_nat k <=? 15) then
      let q := (of_uint63 (Uint63.of_Z n) / of_uint63 (Uint63.of_Z (10 ^ Z.of_nat k)))%float in
      Some (if negative : bool then (- q)%float else q)
    else None.

Definition decimal_float (v : value) : outcome float :=
  match v with
  | VFloat f => Ok f
  | VStr s =>
      match decimal s with
      | Some f => Ok f
      | None => Raise (ValueError "could not convert string to float")
      end
  | _ => Raise (TypeError "float() argument must be a string or a real number")
  end.

(** ** The filters of the account views *)

Section Filters.
Context (py_float : value → outcome float).

(** The filter of [get_account_balance] on one asset. *)
Definition wallet_positive (asset : value) : bool :=
  match py_subscript asset "walletBalance" ≫= py_float with
  | Ok amount => (0 <? amount)%float
  | Raise _ => false
  end.

(** The filter of [get_position_info] on one position. *)
Definition position_open (p : value) : bool :=
  match py_subscript p "positionAmt" ≫= py_float with
  | Ok amount => negb (amount =? 0)%float
  | Raise _ => false
  end.

End Filters.

(** ** More scripts *)

(** A catalogue one entry of which has no ["symbol"]. *)
Definition ragged_catalog : value :=
  VDict (<["symbols" :=
             VList [symbol_entry "BTCUSDT";
                    VDict (<["pair" := VStr "ETHUSDT"]> ∅)]]> ∅).

Definition ragged : script := {|
  exchange_info_reply := Ok ragged_catalog;
  create_order_reply := acknowledge;
  account_reply := Ok account;
  position_reply := λ _, Ok open_positions
|}.

(** An account reply with one total and nothing else. *)
Definition bare_account : gmap string value :=
  <["totalWalletBalance" := VStr "15000.00000000"]> ∅.

Definition frugal : script := {|
  exchange_info_reply := Ok catalog;
  create_order_reply := acknowledge;
  account_reply := Ok (VDict bare_account);
  position_reply := λ _, Ok (VList [])
|}.

(** An account reply one asset of which has no wallet balance. *)
Definition torn_account : gmap string value :=
  <["totalWalletBalance" := VStr "15000.00000000"]>
    (<["assets" :=
         VList [asset_entry "USDT" "15000.00000000" "14250.50000000";
                VDict (<["asset" := VStr "BNB"]> ∅)]]> ∅).

Definition torn : script := {|
  exchange_info_reply := Ok catalog;
  create_order_reply := acknowledge;
  account_reply := Ok (VDict torn_account);
  position_reply := λ _, Ok open_positions
|}.

(** ** The interactive session

    [main] and the operations that only [main] reaches: the construction of
    the bot, the open orders, the cancellation, and the console.

    - Standard input is the list of the lines still to be read; [input] on
      the empty list raises [EOFError].
    - Besides the log records and the four client calls above, a session
      constructs the client, sets its URL, queries and cancels open orders,
      prints lines and prompts for input: these are its [action]s, in program
      order.
    - The two [while True] loops run on fuel; [Unfinished] is the status of a
      run whose fuel is spent. *)

(** [bool(v)]. *)
Definition py_truthy (v : value) : bool :=
  match v with
  | VNone => false
  | VBool b => b
  | VInt n => negb (n =? 0)
  | VFloat f => negb (f =? 0)%float
  | VStr s => negb (bool_decide (s = ""))
  | VList l => match l with [] => false | _ :: _ => true end
  | VDict d => negb (bool_decide (size d = 0%nat))
  end.

(** [len(v)]. *)
Definition py_len (v : value) : outcome Z :=
  match v with
  | VStr s => Ok (Z.of_nat (String.length s))
  | VList l => Ok (Z.of_nat (length l))
  | VDict d => Ok (Z.of_nat (size d))
  | _ => Raise (TypeError "object has no len()")
  end.

(** [s * n] on strings. *)
Fixpoint py_repeat (s : string) (n : nat) : string :=
  match n with
  | O => ""
  | S n => String.append s (py_repeat s n)
  end.

(** What [input] raises at the end of standard input. *)
Definition EOFError : exn := OtherException "EOF when reading a line".

(** The part of [self.client] that the session uses besides [Client]:
    the constructor [Client(api_key, api_secret, testnet=...)], the assignment
    of [FUTURES_URL] and the two calls on open orders. *)
Record Desk (World : Type) : Type := {
  new_client : string → string → bool → World → outcome unit * World;
  set_futures_url : string → World → World;
  futures_get_open_orders : option string → World → outcome value * World;
  futures_cancel_order : string → Z → World → outcome value * World
}.
Arguments new_client {World} _ _ _ _ _.
Arguments set_futures_url {World} _ _ _.
Arguments futures_get_open_orders {World} _ _ _.
Arguments futures_cancel_order {World} _ _ _ _.

Inductive action : Type :=
| Bot (e : event)
| NewClient (api_key api_secret : string) (testnet : bool)
| SetFuturesUrl (url : string)
| FuturesGetOpenOrders (symbol : option string)
| FuturesCancelOrder (symbol : string) (order_id : Z)
| Print (text : list piece)
| Input (prompt : string).

Record console (World : Type) : Type := Console {
  stdin : list string;
  exchange : World
}.
Arguments Console {World} _ _.
Arguments stdin {World} _.
Arguments exchange {World} _.

Inductive status (A : Type) : Type :=
| Returned (a : A)
| Raised (e : exn)
| Unfinished.
Arguments Returned {A} a.
Arguments Raised {A} e.
Arguments Unfinished {A}.

Record exec (World A : Type) : Type := Exec {
  outcome_of : status A;
  actions : list action;
  after : console World
}.
Arguments Exec {World A} _ _ _.
Arguments outcome_of {World A} _.
Arguments actions {World A} _.
Arguments after {World A} _.

Definition P (World A : Type) : Type := console World → exec World A.

Global Instance P_ret {World} : MRet (P World) := λ A a s, Exec (Returned a) [] s.
Global Instance P_bind {World} : MBind (P World) := λ A B f p s,
  match p s with
  | Exec (Returned a) t s' =>
      match f a s' with
      | Exec o t' s'' => Exec o (t ++ t') s''
      end
  | Exec (Raised e) t s' => Exec (Raised e) t s'
  | Exec Unfinished t s' => Exec Unfinished t s'
  end.

Definition of_outcome {A} (o : outcome A) : status A :=
  match o with
  | Ok a => Returned a
  | Raise e => Raised e
  end.

(** An operation of the bot, run on the exchange of the session. *)
Definition bot {World A} (m : M World A) : P World A :=
  λ s, match m (exchange s) with
       | Run o t w => Exec (of_outcome o) (Bot <$> t) (Console (stdin s) w)
       end.

Definition evaluate {World A} (o : outcome A) : P World A :=
  λ s, Exec (of_outcome o) [] s.

Definition raise {World A} (e : exn) : P World A := λ s, Exec (Raised e) [] s.

Definition unfinished {World A} : P World A := λ s, Exec Unfinished [] s.

Definition logger {World} (lv : level) (msg : list piece) : P World unit :=
  λ s, Exec (Returned ()) [Bot (Log lv msg)] s.

Definition request {World A} (a : action) (f : World → outcome A * World)
  : P World A :=
  λ s, let '(o, w) := f (exchange s) in
       Exec (of_outcome o) [a] (Console (stdin s) w).

(** [print(text)]. *)
Definition print {World} (text : list piece) : P World unit :=
  λ s, Exec (Returned ()) [Print text] s.

(** [input(prompt)]. *)
Definition input {World} (prompt : string) : P World string :=
  λ s, match stdin s with
       | [] => Exec (Raised EOFError) [Input prompt] s
       | line :: rest => Exec (Returned line) [Input prompt] (Console rest (exchange s))
       end.

(** [try: body except Exception as e: handler]. *)
Definition attempt {World A} (body : P World A) (handler : exn → P World A)
  : P World A :=
  λ s, match body s with
       | Exec (Raised e) t s' =>
           match handler e s' with
           | Exec o t' s'' => Exec o (t ++ t') s''
           end
       | r => r
       end.

(** [for x in l: body(x)]. *)
Fixpoint for_each {World A} (l : list A) (body : A → P World unit) : P World unit :=
  match l with
  | [] => mret ()
  | x :: rest => body x;; for_each rest body
  end.

(** The second argument of [get_user_input]. *)
Inductive input_type : Type := type_str | type_float | type_int.

Definition typed (t : input_type) : Type :=
  match t with
  | type_str => string
  | type_float => float
  | type_int => Z
  end.

(** [bool(x)] for the result of an operation of the bot. *)
Definition truthy (result : option value) : bool :=
  match result with
  | Some v => py_truthy v
  | None => false
  end.

Definition rule : string := py_repeat "=" 60.

Section Session.
Context {World : Type}.
Variable client : Client World.
Variable desk : Desk World.
(** The built-ins [float(x)] and [int(x)]. *)
Variable py_float : value → outcome float.
Variable py_int : value → outcome Z.

Definition _test_connection : M World unit :=
  try_except
    (account_info ← invoke FuturesAccount (futures_account client);
     emit INFO [Lit "Connection to Binance Futures is Succesfull!"];;
     balance ← lift (py_get account_info "totalWalletBalance" (VStr "N/A"));
     emit INFO [Lit "Account Balance: "; Fmt balance])
    (λ e, emit ERROR [Lit "Connection test failed: "; StrExn e];;
          lift (Raise e)).

Definition __init__ (api_key api_secret : string) (testnet : bool)
  : P World unit :=
  attempt
    (request (NewClient api_key api_secret testnet)
             (new_client desk api_key api_secret testnet);;
     request (SetFuturesUrl "https://testnet.binancefuture.com")
             (λ w, (Ok (), set_futures_url desk "https://testnet.binancefuture.com" w));;
     logger INFO [Lit "BinanceBot is Initialized!"];;
     logger INFO [Lit "Using ";
                  Fmt (VStr (if testnet then "TestNet" else "Main Account"))];;
     bot _test_connection)
    (λ e, logger ERROR [Lit "Falied to initialze BinanceBot: "; StrExn e];;
          raise e).

Definition get_open_orders (symbol : option string) : P World value :=
  attempt
    (orders ←
       match symbol with
       | Some s =>
           if bool_decide (s = "") then
             request (FuturesGetOpenOrders None)
                     (futures_get_open_orders desk None)
           else
             request (FuturesGetOpenOrders (Some (upper s)))
                     (futures_get_open_orders desk (Some (upper s)))
       | None =>
           request (FuturesGetOpenOrders None)
                   (futures_get_open_orders desk None)
       end;
     count ← evaluate (py_len orders);
     logger INFO [Lit "Retrieved "; Fmt (VInt count); Lit " open orders"];;
     mret orders)
    (λ e, logger ERROR [Lit "Error getting open orders: "; StrExn e];;
          mret VNone).

Definition cancel_order (symbol : string) (order_id : Z) : P World value :=
  attempt
    (result ← request (FuturesCancelOrder (upper symbol) order_id)
                      (futures_cancel_order desk (upper symbol) order_id);
     logger INFO [Lit "Order "; Fmt (VInt order_id);
                  Lit " cancelled successfully"];;
     mret result)
    (λ e, logger ERROR [Lit "Error cancelling order: "; StrExn e];;
          mret VNone).

Definition print_menu : P World unit :=
  print [Lit (String "010" rule)];;
  print [Lit "BinanceBot MainMenu | by Adithya"];;
  print [Lit rule];;
  print [Lit "1. Place Market Order"];;
  print [Lit "2. Place Limit Order"];;
  print [Lit "3. Place Stop-Limit Order"];;
  print [Lit "4. View Account Balance"];;
  print [Lit "5. View Open Orders"];;
  print [Lit "6. View Positions"];;
  print [Lit "7. Cancel Order"];;
  print [Lit "8. Exit"];;
  print [Lit rule].

(** [float(value)], [int(value)] or [value], by [input_type]. *)
Definition convert (t : input_type) (value : string) : outcome (typed t) :=
  match t with
  | type_float => py_float (VStr value)
  | type_int => py_int (VStr value)
  | type_str => Ok value
  end.

Fixpoint get_user_input (fuel : nat) (prompt : string) (t : input_type)
  : P World (typed t) :=
  match fuel with
  | O => unfinished
  | S fuel =>
      attempt
        (value ← input prompt;
         evaluate (convert t value))
        (λ e,
           match e with
           | ValueError _ =>
               print [Lit "Invalid input."];;
               get_user_input fuel prompt t
           | _ => raise e
           end)
  end.

Section Menu.
(** The fuel of each [get_user_input]. *)
Variable k : nat.

Definition market_order_dialog : P World unit :=
  print [Lit (String "010" "--- MARKET ORDER ---")];;
  symbol ← get_user_input k "Enter symbol: " type_str;
  side ← get_user_input k "Enter side (BUY/SELL): " type_str;
  quantity ← get_user_input k "Enter quantity: " type_float;
  if py_truthy (VFloat quantity) then
    result ← bot (place_market_order client (upper symbol) (upper side) quantity);
    match result with
    | Some order =>
        if py_truthy order then
          print [Lit (String "010" "Order executed successfully!")];;
          order_id ← evaluate (py_subscript order "orderId");
          print [Lit "Order ID: "; Fmt order_id];;
          order_status ← evaluate (py_subscript order "status");
          print [Lit "Status: "; Fmt order_status]
        else mret ()
    | None => mret ()
    end
  else mret ().

Definition limit_order_dialog : P World unit :=
  print [Lit (String "010" "--- LIMIT ORDER ---")];;
  symbol ← get_user_input k "Enter symbol: " type_str;
  side ← get_user_input k "Enter side (BUY/SELL): " type_str;
  quantity ← get_user_input k "Enter quantity: " type_float;
  price ← get_user_input k "Enter limit price: " type_float;
  if py_truthy (VFloat quantity) && py_truthy (VFloat price) then
    result ← bot (place_limit_order client (upper symbol) (upper side)
                                    quantity price "GTC");
    match result with
    | Some order =>
        if py_truthy order then
          print [Lit (String "010" "Order placed successfully!")];;
          order_id ← evaluate (py_subscript order "orderId");
          print [Lit "Order ID: "; Fmt order_id]
        else mret ()
    | None => mret ()
    end
  else mret ().

Definition stop_limit_order_dialog : P World unit :=
  print [Lit (String "010" "--- STOP-LIMIT ORDER ---")];;
  symbol ← get_user_input k "Enter symbol: " type_str;
  side ← get_user_input k "Enter side (BUY/SELL): " type_str;
  quantity ← get_user_input k "Enter quantity: " type_float;
  stop_price ← get_user_input k "Enter stop price: " type_float;
  limit_price ← get_user_input k "Enter limit price: " type_float;
  if py_truthy (VFloat quantity) && py_truthy (VFloat stop_price)
     && py_truthy (VFloat limit_price) then
    result ← bot (place_stop_limit_order client (upper symbol) (upper side)
                                         quantity stop_price limit_price "GTC");
    if truthy result then
      print [Lit (String "010" "Stop-limit order placed!")]
    else mret ()
  else mret ().

Definition account_balance_dialog : P World unit :=
  print [Lit (String "010" "--- ACCOUNT BALANCE ---")];;
  balance ← bot (get_account_balance client py_float);
  match balance with
  | Some balance =>
      if py_truthy balance then
        total ← evaluate (py_subscript balance "totalWalletBalance");
        print [Lit "Total Balance: "; Fmt total; Lit " USDT"];;
        available ← evaluate (py_subscript balance "availableBalance");
        print [Lit "Available: "; Fmt available; Lit " USDT"];;
        print [Lit (String "010" "Assets:")];;
        listed ← evaluate (py_subscript balance "assets");
        assets ← evaluate (py_iter listed);
        for_each assets (λ asset,
          name ← evaluate (py_subscript asset "asset");
          wallet ← evaluate (py_subscript asset "balance");
          available ← evaluate (py_subscript asset "available");
          print [Lit "  "; Fmt name; Lit ": "; Fmt wallet;
                 Lit " (Available: "; Fmt available; Lit ")"])
      else mret ()
  | None => mret ()
  end.

Definition open_orders_dialog : P World unit :=
  print [Lit (String "010" "--- OPEN ORDERS ---")];;
  symbol ← get_user_input k "Enter symbol (or press Enter for all): " type_str;
  let symbol := upper symbol in
  orders ← get_open_orders (if bool_decide (symbol = "") then None else Some symbol);
  if py_truthy orders then
    count ← evaluate (py_len orders);
    if count =? 0 then print [Lit "No open orders"]
    else
      entries ← evaluate (py_iter orders);
      for_each entries (λ order,
        order_id ← evaluate (py_subscript order "orderId");
        print [Lit (String "010" "Order ID: "); Fmt order_id];;
        name ← evaluate (py_subscript order "symbol");
        print [Lit "Symbol: "; Fmt name];;
        side ← evaluate (py_subscript order "side");
        print [Lit "Side: "; Fmt side];;
        type ← evaluate (py_subscript order "type");
        print [Lit "Type: "; Fmt type];;
        quantity ← evaluate (py_subscript order "origQty");
        print [Lit "Quantity: "; Fmt quantity];;
        price ← evaluate (py_subscript order "price");
        print [Lit "Price: "; Fmt price])
  else mret ().

Definition positions_dialog : P World unit :=
  print [Lit (String "010" "--- POSITIONS ---")];;
  positions ← bot (get_position_info client py_float None);
  match positions with
  | Some positions =>
      if py_truthy (VList positions) then
        if Z.of_nat (length positions) =? 0 then
          print [Lit "No active positions"]
        else
          for_each positions (λ pos,
            name ← evaluate (py_subscript pos "symbol");
            print [Lit (String "010" "Symbol: "); Fmt name];;
            amount ← evaluate (py_subscript pos "positionAmt");
            print [Lit "Position Amount: "; Fmt amount];;
            entry ← evaluate (py_subscript pos "entryPrice");
            print [Lit "Entry Price: "; Fmt entry];;
            profit ← evaluate (py_subscript pos "unRealizedProfit");
            print [Lit "Unrealized PnL: "; Fmt profit])
      else mret ()
  | None => mret ()
  end.

Definition cancel_order_dialog : P World unit :=
  print [Lit (String "010" "--- CANCEL ORDER ---")];;
  symbol ← get_user_input k "Enter symbol: " type_str;
  order_id ← get_user_input k "Enter order ID: " type_int;
  if py_truthy (VInt order_id) then
    result ← cancel_order (upper symbol) order_id;
    if py_truthy result then print [Lit "Order cancelled successfully"]
    else mret ()
  else mret ().

(** The [if] chain of the loop of [main]; the result tells whether the loop
    is left by [break]. *)
Definition menu_choice (choice : string) : P World bool :=
  if bool_decide (choice = "1") then market_order_dialog;; mret false
  else if bool_decide (choice = "2") then limit_order_dialog;; mret false
  else if bool_decide (choice = "3") then stop_limit_order_dialog;; mret false
  else if bool_decide (choice = "4") then account_balance_dialog;; mret false
  else if bool_decide (choice = "5") then open_orders_dialog;; mret false
  else if bool_decide (choice = "6") then positions_dialog;; mret false
  else if bool_decide (choice = "7") then cancel_order_dialog;; mret false
  else if bool_decide (choice = "8") then
    print [Lit (String "010" "Thank you for using the trading bot!")];;
    logger INFO [Lit "Bot session ended by user"];;
    mret true
  else
    print [Lit "Invalid option. Please select 1-8"];;
    mret false.

(** One turn of the loop of [main]; the result tells whether the loop goes
    on. *)
Definition menu_round : P World bool :=
  print_menu;;
  choice ← get_user_input k "Select an option: (1-8): " type_str;
  leave ← menu_choice choice;
  if leave : bool then mret false
  else
    input (String "010" "Press Enter to continue...");;
    mret true.

Fixpoint menu_loop (fuel : nat) : P World unit :=
  match fuel with
  | O => unfinished
  | S fuel =>
      again ← menu_round;
      if again : bool then menu_loop fuel else mret ()
  end.

End Menu.

(** [main]; [API_KEY] and [SECRET_KEY] are the two values of [os.getenv]. *)
Definition main (fuel : nat) (API_KEY SECRET_KEY : option string)
  : P World unit :=
  print [Lit (String "010" " Welcome to Binance Futures Trading bot")];;
  print [Lit rule];;
  match API_KEY, SECRET_KEY with
  | Some api_key, Some secret_key =>
      if negb (py_truthy (VStr api_key)) || negb (py_truthy (VStr secret_key))
      then
        print [Lit "API credentials are required. Please add them in your .env file."]
      else
        attempt
          (__init__ api_key secret_key true;;
           print [Lit "BinanceBot has been initialized."];;
           menu_loop fuel fuel)
          (λ e, logger ERROR [Lit "Error: "; StrExn e];;
                print [Lit "An Error occured in the main program: "; StrExn e])
  | _, _ =>
      print [Lit "API credentials are required. Please add them in your .env file."]
  end.

End Session.

(** ** Predicates on sessions *)

(** What the rejected lines [bad] leave on the console. *)
Definition rejections (prompt : string) (bad : list string) : list action :=
  concat ((λ _, [Input prompt; Print [Lit "Invalid input."]]) <$> bad).

(** On a console with fewer than [k] lines to read, [p] finishes and leaves
    a suffix of the lines it found. *)
Definition settled {World : Type} (k : nat) {A : Type} (p : P World A) : Prop :=
  ∀ s, (length (stdin s) < k)%nat →
    outcome_of (p s) ≠ Unfinished ∧ stdin (after (p s)) `suffix_of` stdin s.

(** [p] finishes, and has read at least one line when it returns. *)
Definition reads {World : Type} (k : nat) {A : Type} (p : P World A) : Prop :=
  ∀ s, (length (stdin s) < k)%nat →
    match outcome_of (p s) with
    | Returned _ => (length (stdin (after (p s))) < length (stdin s))%nat
    | Raised _ => True
    | Unfinished => False
    end ∧
    stdin (after (p s)) `suffix_of` stdin s.

(** Every action of [p] satisfies [Q], on every console. *)
Definition always {World : Type} (Q : action → Prop) {A : Type} (p : P World A)
  : Prop :=
  ∀ s, Forall Q (actions (p s)).

(** The two messages that no session prints. *)
Definition not_an_empty_listing (a : action) : Prop :=
  a ≠ Print [Lit "No open orders"] ∧ a ≠ Print [Lit "No active positions"].

(** The orders a session submits: a side, a quantity that is not zero and,
    but for market orders, a price that is not zero and the time in force
    GTC. *)
Definition well_formed_order (p : gmap string value) : Prop :=
  (p !! "side" = Some (VStr "BUY") ∨ p !! "side" = Some (VStr "SELL")) ∧
  (∃ quantity, p !! "quantity" = Some (VFloat quantity) ∧
               (quantity =? 0)%float = false) ∧
  (p !! "type" = Some (VStr "MARKET") ∨
   p !! "timeInForce" = Some (VStr "GTC") ∧
   ∃ price, p !! "price" = Some (VFloat price) ∧ (price =? 0)%float = false).

Definition request_ok (a : action) : Prop :=
  match a with
  | Bot (Call (FuturesCreateOrder p)) => well_formed_order p
  | FuturesCancelOrder _ order_id => order_id ≠ 0
  | NewClient api_key api_secret testnet =>
      api_key ≠ "" ∧ api_secret ≠ "" ∧ testnet = true
  | _ => True
  end.

(** An entry of the assets that [get_account_balance] builds. *)
Definition shown_asset (a : value) : Prop :=
  ∃ name wallet available,
    a = VDict (<["asset" := name]>
                 (<["balance" := wallet]> (<["available" := available]> ∅))).

(** [p] and [p'] run alike on a console with fewer than [k] and [k'] lines. *)
Definition agree {World : Type} (k k' : nat) {A : Type} (p p' : P World A)
  : Prop :=
  ∀ s, (length (stdin s) < k)%nat → (length (stdin s) < k')%nat → p s = p' s.

(** ** A scripted desk

    The rest of the client, for the concrete sessions below. *)

(** A desk that lets the client in and has no open order. *)
Definition counter : Desk script := {|
  new_client _ _ _ w := (Ok (), w);
  set_futures_url _ w := w;
  futures_get_open_orders _ w := (Ok (VList []), w);
  futures_cancel_order _ order_id w :=
    (Ok (VDict (<["orderId" := VInt order_id]>
                  (<["status" := VStr "CANCELED"]> ∅))), w)
|}.

(** A desk that turns the credentials down. *)
Definition closed : Desk script := {|
  new_client _ _ _ w :=
    (Raise (BinanceAPIException 401 (-2015)
              "Invalid API-key, IP, or permissions for action."), w);
  set_futures_url _ w := w;
  futures_get_open_orders _ w := (Ok (VList []), w);
  futures_cancel_order _ _ w := (Raise (OtherException "no session"), w)
|}.

(** A desk whose one open order has no id. *)
Definition sloppy : Desk script := {|
  new_client _ _ _ w := (Ok (), w);
  set_futures_url _ w := w;
  futures_get_open_orders _ w :=
    (Ok (VList [VDict (<["symbol" := VStr "BTCUSDT"]>
                         (<["side" := VStr "BUY"]> ∅))]), w);
  futures_cancel_order _ _ w := (Raise (OtherException "Unknown order sent."), w)
|}.

(** [int] on integers and on plain decimal literals [[-]ddd]; other
    arguments are answered with an exception and are not used below. *)
Fixpoint natural (s : string) (acc : Z) : option Z :=
  match s with
  | EmptyString => Some acc
  | String c r =>
      let n := Z.of_N (N_of_ascii c) in
      if (48 <=? n) && (n <=? 57) then natural r (10 * acc + (n - 48))
      else None
  end.

Definition decimal_int (v : value) : outcome Z :=
  match v with
  | VInt n => Ok n
  | VStr s =>
      let '(negative, body) :=
        match s with
        | String "-" r => (true, r)
        | _ => (false, s)
        end in
      match (if bool_decide (body = "") then None else natural body 0) with
      | Some n => Ok (if negative : bool then - n else n)
      | None => Raise (ValueError "invalid literal for int() with base 10")
      end
  | _ => Raise (TypeError "int() argument must be a string or a real number")
  end.

(** * Properties *)

Lemma submitted_app (t u : list event) :
  submitted (t ++ u) = submitted t ++ submitted u.
Proof.
  induction t as [|[lv msg|[| p | |scope]] t IH]; cbn; [done| | | | |];
    rewrite IH; done.
Qed.

Lemma str_in_elem_of (x : string) (l : list value) :
  str_in x l = true ↔ VStr x ∈ l.
Proof.
  unfold str_in. rewrite existsb_exists. split.
  - intros (v & Hin & Hv). destruct v; try discriminate.
    apply bool_decide_eq_true in Hv. subst. by apply list_elem_of_In.
  - intros Hin. exists (VStr x). split; [by apply list_elem_of_In|].
    by apply bool_decide_eq_true.
Qed.

(** Lookups in dictionaries stay folded while a run is unfolded. *)
#[local] Arguments py_subscript : simpl never.
#[local] Arguments py_get : simpl never.
#[local] Arguments py_iter : simpl never.
#[local] Arguments py_contains_key : simpl never.
#[local] Arguments listed_symbols : simpl never.
#[local] Arguments market_params : simpl never.
#[local] Arguments limit_params : simpl never.
#[local] Arguments stop_limit_params : simpl never.

Lemma py_subscript_dict (d : gmap string value) (k : string) :
  py_subscript (VDict d) k =
    match d !! k with
    | Some x => Ok x
    | None => Raise (KeyError k)
    end.
Proof. reflexivity. Qed.

Lemma py_subscript_ok (v : value) (k : string) (x : value) :
  py_subscript v k = Ok x → ∃ d, v = VDict d ∧ d !! k = Some x.
Proof.
  destruct v as [| | | | | |d]; try discriminate.
  rewrite py_subscript_dict. destruct (d !! k) eqn:Hk; [|discriminate].
  intros [= ->]. eauto.
Qed.

Lemma upper_ascii_idempotent (c : ascii) :
  upper_ascii (upper_ascii c) = upper_ascii c.
Proof. destruct c as [[|] [|] [|] [|] [|] [|] [|] [|]]; reflexivity. Qed.

Lemma upper_idempotent (s : string) : upper (upper s) = upper s.
Proof.
  induction s as [|c s IH]; [reflexivity|].
  cbn [upper]. by rewrite upper_ascii_idempotent, IH.
Qed.

(** A comprehension succeeds when its expression does on every element. *)
Lemma mapM_ok {A B : Type} (f : A → outcome B) (l : list A) (k : list B) :
  mapM f l = Ok k ↔ Forall2 (λ x y, f x = Ok y) l k.
Proof.
  revert k. induction l as [|x l IH]; intros k.
  - split; [intros [= <-]; constructor|by intros ->%Forall2_nil_inv_l].
  - change (mapM f (x :: l)) with (f x ≫= λ y, mapM f l ≫= λ k, mret (y :: k)).
    split.
    + destruct (f x) as [y|] eqn:Hx; [|by intros [=]].
      destruct (mapM f l) as [k'|] eqn:Hl; [|by intros [=]].
      intros [= <-]. constructor; [done|by apply IH].
    + intros (y & k' & Hx & Hl & ->)%Forall2_cons_inv_l.
      apply IH in Hl. by rewrite Hx, Hl.
Qed.

(** Unfolding of the monadic operations of a run. *)
Ltac run_bot :=
  unfold try_except, _log_request, _log_response, invoke, lift, emit;
  unfold mbind, M_bind, mret, M_ret; cbn.

Section Validation.
Context {World : Type} (client : Client World).

(** The whole behaviour of [_validate_symbol], by the reply of the fetch. *)
Lemma validate_symbol_run (symbol : string) (w : World) :
  _validate_symbol client symbol w =
    match (futures_exchange_info client w).1 ≫= listed_symbols with
    | Ok symbols =>
        Run (Ok (str_in (upper symbol) symbols)) [Call FuturesExchangeInfo]
            (futures_exchange_info client w).2
    | Raise _ =>
        Run (Ok false)
            [Call FuturesExchangeInfo; Log ERROR msg_symbol_verification_failed]
            (futures_exchange_info client w).2
    end.
Proof.
  unfold _validate_symbol. run_bot.
  destruct (futures_exchange_info client w) as [[info|e] w']; cbn; [|done].
  destruct (listed_symbols info); cbn; done.
Qed.

Lemma validate_symbol_returns (symbol : string) (w : World) :
  ∃ b, result (_validate_symbol client symbol w) = Ok b.
Proof.
  rewrite validate_symbol_run.
  destruct (_ ≫= listed_symbols); cbn; eauto.
Qed.

Lemma validate_symbol_submits_nothing (symbol : string) (w : World) :
  submitted (trace (_validate_symbol client symbol w)) = [].
Proof.
  rewrite validate_symbol_run.
  destruct (_ ≫= listed_symbols); cbn; done.
Qed.

Lemma validate_symbol_shape (symbol : string) (w : World) :
  ∃ b tv wv,
    _validate_symbol client symbol w = Run (Ok b) tv wv ∧ submitted tv = [].
Proof.
  rewrite validate_symbol_run.
  destruct (_ ≫= listed_symbols); cbn; eauto 6.
Qed.

Lemma validate_symbol_listed (symbol : string) (w : World)
    (info : value) (symbols : list value) :
  (futures_exchange_info client w).1 = Ok info →
  listed_symbols info = Ok symbols →
  VStr (upper symbol) ∈ symbols →
  result (_validate_symbol client symbol w) = Ok true.
Proof.
  intros Hinfo Hsyms Hin. rewrite validate_symbol_run, Hinfo. cbn.
  rewrite Hsyms. cbn. f_equal. by apply str_in_elem_of.
Qed.

(** The symbols listed are those of the entries of ["symbols"], each read
    under ["symbol"]. *)
Lemma listed_symbols_ok (info : value) (symbols : list value) :
  listed_symbols info = Ok symbols ↔
  ∃ listing entries,
    py_subscript info "symbols" = Ok listing ∧
    py_iter listing = Ok entries ∧
    Forall2 (λ entry name, py_subscript entry "symbol" = Ok name) entries symbols.
Proof.
  unfold listed_symbols, mbind, outcome_bind. split.
  - destruct (py_subscript info "symbols") as [listing|]; [|discriminate].
    destruct (py_iter listing) as [entries|] eqn:Hentries; [|discriminate].
    intros Hall%mapM_ok. by exists listing, entries.
  - intros (listing & entries & -> & -> & Hall). by apply mapM_ok.
Qed.

(** When [_validate_symbol] answers [True], in terms of the reply of the
    exchange. *)
Lemma validate_symbol_true (symbol : string) (w : World) :
  result (_validate_symbol client symbol w) = Ok true ↔
  ∃ info listing entries,
    (futures_exchange_info client w).1 = Ok info ∧
    py_subscript info "symbols" = Ok listing ∧
    py_iter listing = Ok entries ∧
    (∀ entry, entry ∈ entries → ∃ name, py_subscript entry "symbol" = Ok name) ∧
    (∃ entry, entry ∈ entries ∧
              py_subscript entry "symbol" = Ok (VStr (upper symbol))).
Proof.
  split.
  - rewrite validate_symbol_run.
    destruct (futures_exchange_info client w).1 as [info|e]; cbn; [|done].
    destruct (listed_symbols info) as [symbols|e] eqn:Hsyms; cbn; [|done].
    intros [= Hin%str_in_elem_of].
    apply listed_symbols_ok in Hsyms as (listing & entries & Hl & He & Hall).
    exists info, listing, entries. repeat split; try done.
    + intros entry (i & Hi)%list_elem_of_lookup.
      destruct (Forall2_lookup_l _ _ _ _ _ Hall Hi) as (name & _ & Hname).
      by eauto.
    + apply list_elem_of_lookup in Hin as (i & Hi).
      destruct (Forall2_lookup_r _ _ _ _ _ Hall Hi) as (entry & He' & Hname).
      exists entry. split; [|done]. apply list_elem_of_lookup. by eauto.
  - intros (info & listing & entries & Hinfo & Hl & He & Hall & entry & Hin & Hname).
    assert (∃ symbols,
              Forall2 (λ entry name, py_subscript entry "symbol" = Ok name)
                      entries symbols) as [symbols Hsyms].
    { clear Hin He. induction entries as [|x entries IH]; [by eexists|].
      destruct (Hall x) as [name Hx]; [by left|].
      destruct IH as [symbols Hsyms]; [intros y Hy; apply Hall; by right|].
      exists (name :: symbols). by constructor. }
    apply (validate_symbol_listed symbol w info symbols); [done| |].
    + apply listed_symbols_ok. by eauto.
    + apply list_elem_of_lookup in Hin as (i & Hi).
      destruct (Forall2_lookup_l _ _ _ _ _ Hsyms Hi) as (name & Hi' & Hname').
      rewrite Hname in Hname'. injection Hname' as <-.
      apply list_elem_of_lookup. by eauto.
Qed.

(** C7. [_validate_symbol] answers [True] exactly when the fetch of the
    exchange information succeeds, the reply has a listing under
    ["symbols"] every entry of which has a ["symbol"], and the ["symbol"]
    of some entry is the upper-cased input; the names of the listing are
    compared as they are, so that the case of the input alone is ignored.
    When the fetch raises, whatever the exception, it answers [False], the
    only trace of the failure being an ERROR log record; and it raises
    nothing in any case. *)
Theorem validate_symbol_membership (symbol : string) (w : World) :
  let r := _validate_symbol client symbol w in
  (result r = Ok true ↔
     ∃ info listing entries,
       (futures_exchange_info client w).1 = Ok info ∧
       py_subscript info "symbols" = Ok listing ∧
       py_iter listing = Ok entries ∧
       (∀ entry, entry ∈ entries →
                 ∃ name, py_subscript entry "symbol" = Ok name) ∧
       (∃ entry, entry ∈ entries ∧
                 py_subscript entry "symbol" = Ok (VStr (upper symbol)))) ∧
  _validate_symbol client (upper symbol) w = r ∧
  (∀ e, (futures_exchange_info client w).1 = Raise e →
        result r = Ok false ∧
        trace r = [Call FuturesExchangeInfo;
                   Log ERROR msg_symbol_verification_failed]) ∧
  (∃ b, result r = Ok b).
Proof.
  cbv zeta. split; [|split; [|split]].
  - apply validate_symbol_true.
  - by rewrite !validate_symbol_run, upper_idempotent.
  - intros e He. rewrite validate_symbol_run, He. cbn. done.
  - apply validate_symbol_returns.
Qed.

End Validation.

Section Orders.
Context {World : Type} (client : Client World).

#[local] Arguments _validate_symbol : simpl never.

(** The symbol check of an operation: name the run of [_validate_symbol],
    which comes first in the goal, and split on its outcome. *)
Ltac validated symbol w :=
  let b := fresh "b" in
  let tv := fresh "tv" in
  let wv := fresh "wv" in
  let Hrun := fresh "Hrun" in
  let Hnone := fresh "Hnone" in
  destruct (validate_symbol_shape client (upper symbol) w)
    as (b & tv & wv & Hrun & Hnone);
  unfold mbind, M_bind; cbv beta;
  rewrite Hrun in *; cbv beta iota; cbn [result trace final] in *.

(** The [try] block of a market or limit order, by the reply of the
    exchange and the two lookups in it. *)
Ltac gateway :=
  run_bot;
  destruct (futures_create_order _ _ _) as [[reply|err] wr]; cbn;
  [destruct (py_subscript reply "orderId") as [order_id|err] eqn:Hid; cbn;
   [destruct (py_subscript reply "status") as [status|err] eqn:Hstatus; cbn|]|];
  try (destruct err; cbn).

Ltac side_ok Hside := rewrite (bool_decide_eq_true_2 _ Hside); cbn [negb].
Ltac side_bad Hside := rewrite (bool_decide_eq_false_2 _ Hside); cbn [negb].





(** C3. [place_stop_limit_order] checks the side and the symbol and nothing
    else: when both pass, whatever the quantity, the two prices and the
    time in force, exactly one request is handed to the exchange; it has
    type STOP, its ["price"] is the limit price, its ["stopPrice"] the stop
    price, and its symbol and side are in upper case. A bad side or a bad
    symbol ends the operation with [None] and no request. *)
Theorem place_stop_limit_order_request
    (symbol side : string) (quantity stop_price limit_price : float)
    (time_in_force : string) (w : World) :
  let r := place_stop_limit_order client symbol side quantity stop_price
                                  limit_price time_in_force w in
  let v := _validate_symbol client (upper symbol) w in
  let request := stop_limit_params (upper symbol) (upper side) quantity
                                   stop_price limit_price
                                   (upper time_in_force) in
  (upper side ∈ ["BUY"; "SELL"] → result v = Ok true →
     submitted (trace r) = [request]) ∧
  (request !! "type" = Some (VStr "STOP") ∧
   request !! "price" = Some (VFloat limit_price) ∧
   request !! "stopPrice" = Some (VFloat stop_price) ∧
   request !! "symbol" = Some (VStr (upper symbol)) ∧
   request !! "side" = Some (VStr (upper side)) ∧
   request !! "quantity" = Some (VFloat quantity) ∧
   request !! "timeInForce" = Some (VStr (upper time_in_force))) ∧
  (upper side ∉ ["BUY"; "SELL"] →
     r = Run (Ok None) [Log ERROR (msg_invalid_side (upper side))] w) ∧
  (upper side ∈ ["BUY"; "SELL"] → result v = Ok false →
     r = Run (Ok None)
             (trace v ++ [Log ERROR (msg_invalid_symbol (upper symbol))])
             (final v)).
Proof.
  cbv zeta. split; [|split; [|split]].
  - intros Hside Hv. unfold place_stop_limit_order. side_ok Hside.
    validated symbol w. injection Hv as ->. cbn [negb]. run_bot.
    destruct (futures_create_order _ _ _) as [[order|e] w']; cbn;
      [|rewrite submitted_app, Hnone; done].
    destruct (py_contains_key "orderId" order) as [[|]|e]; cbn;
      [destruct (py_subscript order "orderId"); cbn
      |destruct (py_contains_key "algoId" order) as [[|]|e']; cbn;
       [destruct (py_subscript order "algoId"); cbn| |]
      |];
      rewrite submitted_app, Hnone; done.
  - unfold stop_limit_params. repeat split; by simplify_map_eq.
  - intros Hside. unfold place_stop_limit_order. side_bad Hside. done.
  - intros Hside Hv. unfold place_stop_limit_order. side_ok Hside.
    validated symbol w. injection Hv as ->. done.
Qed.

(** What the [try] block of [place_market_order] and [place_limit_order]
    returns is a reply in which both lookups succeeded. *)
Lemma returned_order_has_keys (reply : value) (x y : value) :
  py_subscript reply "orderId" = Ok x →
  py_subscript reply "status" = Ok y →
  ∃ d, reply = VDict d ∧ is_Some (d !! "orderId") ∧ is_Some (d !! "status").
Proof.
  intros Hid Hstatus.
  apply py_subscript_ok in Hid as (d & -> & Hid).
  apply py_subscript_ok in Hstatus as (d' & [= <-] & Hstatus).
  exists d. eauto.
Qed.

(** C8. When the side, symbol and quantity (and, for a limit order, price
    and time in force) pass and the exchange answers the order with a dict
    that lacks ["orderId"] or ["status"], [place_market_order] and
    [place_limit_order] have handed the request to the exchange and yet
    return [None]: the [KeyError] of the missing key ends in the generic
    handler, whose error record is the last of the trace. Whenever either
    operation returns an order, that order is a dict with both keys. *)
Theorem order_reply_without_keys_is_swallowed
    (symbol side : string) (quantity price : float) (time_in_force : string)
    (w : World) :
  let m := place_market_order client symbol side quantity w in
  let l := place_limit_order client symbol side quantity price time_in_force w in
  let v := _validate_symbol client (upper symbol) w in
  let market := market_params (upper symbol) (upper side) quantity in
  let limit := limit_params (upper symbol) (upper side) quantity price
                            (upper time_in_force) in
  (upper side ∈ ["BUY"; "SELL"] → result v = Ok true →
   (quantity <=? 0)%float = false →
   ∀ (d : gmap string value) (w' : World),
     d !! "orderId" = None ∨ d !! "status" = None →
     (futures_create_order client market (final v) = (Ok (VDict d), w') →
      result m = Ok None ∧ submitted (trace m) = [market] ∧
      ∃ k, d !! k = None ∧
           last (trace m) =
             Some (Log ERROR
                     [Lit "Unexpected error occured while placing market order: ";
                      StrExn (KeyError k)])) ∧
     ((price <=? 0)%float = false →
      upper time_in_force ∈ ["GTC"; "IOC"; "FOK"] →
      futures_create_order client limit (final v) = (Ok (VDict d), w') →
      result l = Ok None ∧ submitted (trace l) = [limit] ∧
      ∃ k, d !! k = None ∧
           last (trace l) =
             Some (Log ERROR
                     [Lit "Unexpected error placing limit order: ";
                      StrExn (KeyError k)]))) ∧
  (∀ order, result m = Ok (Some order) ∨ result l = Ok (Some order) →
     ∃ d, order = VDict d ∧
          is_Some (d !! "orderId") ∧ is_Some (d !! "status")).
Proof.
  cbv zeta. split.
  - intros Hside Hv Hq d w' Hmiss. split.
    + intros Hreply. unfold place_market_order. side_ok Hside.
      validated symbol w. injection Hv as ->. cbn [negb]. rewrite Hq.
      run_bot. rewrite Hreply. cbn. rewrite !py_subscript_dict.
      destruct (d !! "orderId") eqn:Hid; cbn;
        [destruct (d !! "status") eqn:Hstatus; cbn;
         [destruct Hmiss; discriminate|]|];
        (split; [done|]); rewrite submitted_app, Hnone;
        (split; [done|]); eexists; (split; [eassumption|]);
        rewrite last_app; done.
    + intros Hp Htif Hreply. unfold place_limit_order. side_ok Hside.
      validated symbol w. injection Hv as ->. cbn [negb]. rewrite Hq, Hp.
      rewrite (bool_decide_eq_true_2 _ Htif). cbn [negb].
      run_bot. rewrite Hreply. cbn. rewrite !py_subscript_dict.
      destruct (d !! "orderId") eqn:Hid; cbn;
        [destruct (d !! "status") eqn:Hstatus; cbn;
         [destruct Hmiss; discriminate|]|];
        (split; [done|]); rewrite submitted_app, Hnone;
        (split; [done|]); eexists; (split; [eassumption|]);
        rewrite last_app; done.
  - intros order. unfold place_market_order, place_limit_order.
    destruct (decide (upper side ∈ ["BUY"; "SELL"])) as [Hside|Hside].
    + side_ok Hside. validated symbol w.
      destruct b; cbn [negb]; [|run_bot; intros [[=]|[=]]].
      intros [Hm|Hl].
      * revert Hm. destruct (quantity <=? 0)%float; [run_bot; done|].
        gateway; intros [= Horder]; try discriminate.
        subst order. eapply returned_order_has_keys; eauto.
      * revert Hl. destruct (quantity <=? 0)%float; [run_bot; done|].
        destruct (price <=? 0)%float; [run_bot; done|].
        destruct (bool_decide _); cbn [negb]; [|run_bot; done].
        gateway; intros [= Horder]; try discriminate.
        subst order. eapply returned_order_has_keys; eauto.
    + side_bad Hside. run_bot. intros [[=]|[=]].
Qed.


End Orders.

Section Account.
Context {World : Type} (client : Client World).
Context (py_float : value → outcome float).

Lemma positive_assets_balances (entries assets : list value) :
  positive_assets py_float entries = Ok assets →
  ∀ entry, entry ∈ assets →
    ∃ (d : gmap string value) (balance : value) (amount : float),
      entry = VDict d ∧ d !! "balance" = Some balance ∧
      py_float balance = Ok amount ∧ (0 <? amount)%float = true.
Proof.
  revert assets. induction entries as [|asset rest IH]; intros assets.
  - intros [= <-] entry Hin. by apply elem_of_nil in Hin.
  - cbn [positive_assets]. unfold mbind, outcome_bind, mret, outcome_ret.
    destruct (py_subscript asset "walletBalance") as [wallet|] eqn:Hwallet;
      [|discriminate].
    destruct (py_float wallet) as [amount|] eqn:Hamount; [|discriminate].
    destruct (0 <? amount)%float eqn:Hpos; [|by apply IH].
    destruct (py_subscript asset "asset") as [name|]; [|discriminate].
    destruct (py_subscript asset "availableBalance") as [available|];
      [|discriminate].
    destruct (positive_assets py_float rest) as [others|]; [|discriminate].
    intros [= <-] entry [->|Hin]%elem_of_cons; [|by eapply IH].
    eexists _, wallet, amount. split; [done|].
    split; [by simplify_map_eq|]. done.
Qed.

(** C9. Whatever the exchange answers to the account query, when
    [get_account_balance] returns a snapshot, the snapshot is a dict whose
    ["assets"] is a list of entries whose ["balance"] converts to a float
    strictly above zero: an asset with a wallet balance [<= 0] (or not a
    number) is in no snapshot. *)
Theorem account_assets_strictly_positive (w : World) (snapshot : value) :
  result (get_account_balance client py_float w) = Ok (Some snapshot) →
  ∃ (d : gmap string value) (assets : list value),
    snapshot = VDict d ∧ d !! "assets" = Some (VList assets) ∧
    ∀ entry, entry ∈ assets →
      ∃ (e : gmap string value) (balance : value) (amount : float),
        entry = VDict e ∧ e !! "balance" = Some balance ∧
        py_float balance = Ok amount ∧ (0 <? amount)%float = true.
Proof.
  unfold get_account_balance. run_bot.
  destruct (futures_account client w) as [[account|e] w']; cbn; [|done].
  destruct (py_get account "totalWalletBalance" VNone) as [total|]; cbn;
    [|done].
  destruct (py_get account "availableBalance" VNone) as [available|]; cbn;
    [|done].
  destruct (py_get account "assets" (VList [])) as [listed|]; cbn; [|done].
  destruct (py_iter listed) as [entries|]; cbn; [|done].
  destruct (positive_assets py_float entries) as [assets|] eqn:Hassets; cbn;
    [|done].
  intros [= <-]. eexists _, assets. split; [done|].
  split; [by simplify_map_eq|].
  by eapply positive_assets_balances.
Qed.

Lemma active_positions_nonzero (entries active : list value) :
  active_positions py_float entries = Ok active →
  ∀ p, p ∈ active →
    ∃ (raw : value) (amount : float),
      py_subscript p "positionAmt" = Ok raw ∧
      py_float raw = Ok amount ∧ (amount =? 0)%float = false.
Proof.
  revert active. induction entries as [|q rest IH]; intros active.
  - intros [= <-] p Hin. by apply elem_of_nil in Hin.
  - cbn [active_positions]. unfold mbind, outcome_bind, mret, outcome_ret.
    destruct (py_subscript q "positionAmt") as [raw|] eqn:Hraw;
      [|discriminate].
    destruct (py_float raw) as [amount|] eqn:Hamount; [|discriminate].
    destruct (active_positions py_float rest) as [others|]; [|discriminate].
    destruct (amount =? 0)%float eqn:Hzero; intros [= <-] p Hin.
    + by eapply IH.
    + apply elem_of_cons in Hin as [->|Hin]; [eauto|by eapply IH].
Qed.

(** C10. Whatever the exchange answers to the position query, every entry
    of the list that [get_position_info] returns has a ["positionAmt"]
    that converts to a float different from zero. *)
Theorem positions_nonzero (symbol : option string) (w : World)
    (positions : list value) :
  result (get_position_info client py_float symbol w) = Ok (Some positions) →
  ∀ p, p ∈ positions →
    ∃ (raw : value) (amount : float),
      py_subscript p "positionAmt" = Ok raw ∧
      py_float raw = Ok amount ∧ (amount =? 0)%float = false.
Proof.
  unfold get_position_info. run_bot.
  destruct (futures_position_information client _ w) as [[reply|e] w']; cbn;
    [|done].
  destruct (py_iter reply) as [entries|]; cbn; [|done].
  destruct (active_positions py_float entries) as [active|] eqn:Hactive;
    cbn; [|done].
  intros [= <-]. by eapply active_positions_nonzero.
Qed.

End Account.

(** * Runs against the scripted exchange *)

Lemma buy_is_a_side : upper "buy" ∈ ["BUY"; "SELL"].
Proof. apply list_elem_of_In. vm_compute. auto. Qed.


Lemma catalog_lists (name : string) (s : script) :
  exchange_info_reply s = Ok catalog →
  name = "BTCUSDT" ∨ name = "ETHUSDT" →
  result (_validate_symbol scripted name s) = Ok true.
Proof.
  intros Hs Hname.
  apply (validate_symbol_listed scripted name s catalog
           [VStr "BTCUSDT"; VStr "ETHUSDT"]).
  - exact Hs.
  - vm_compute. reflexivity.
  - apply str_in_elem_of. destruct Hname as [-> | ->]; vm_compute; reflexivity.
Qed.

Lemma catalog_entries (name : string) :
  name = "BTCUSDT" ∨ name = "ETHUSDT" →
  ∃ info listing entries,
    exchange_info_reply testnet = Ok info ∧
    py_subscript info "symbols" = Ok listing ∧
    py_iter listing = Ok entries ∧
    (∀ entry, entry ∈ entries → ∃ name, py_subscript entry "symbol" = Ok name) ∧
    (∃ entry, entry ∈ entries ∧ py_subscript entry "symbol" = Ok (VStr name)).
Proof.
  intros Hname.
  exists catalog, (VList [symbol_entry "BTCUSDT"; symbol_entry "ETHUSDT"]),
         [symbol_entry "BTCUSDT"; symbol_entry "ETHUSDT"].
  split; [reflexivity|]. split; [vm_compute; reflexivity|].
  split; [reflexivity|]. split.
  - intros entry [->|[->|[]%elem_of_nil]%elem_of_cons]%elem_of_cons;
      eexists; vm_compute; reflexivity.
  - exists (symbol_entry name). split; [|vm_compute; reflexivity].
    destruct Hname as [-> | ->]; [by left|right; by left].
Qed.

(** C7, on the test network and with the catalogue out of reach. *)
Lemma validate_symbol_membership_witness :
  result (_validate_symbol scripted "btcusdt" testnet) = Ok true ∧
  result (_validate_symbol scripted "btcusdt" offline) = Ok false ∧
  trace (_validate_symbol scripted "btcusdt" offline) =
    [Call FuturesExchangeInfo; Log ERROR msg_symbol_verification_failed].
Proof.
  pose proof (validate_symbol_membership scripted "btcusdt" testnet) as Hon.
  pose proof (validate_symbol_membership scripted "btcusdt" offline) as Hoff.
  cbv zeta in Hon, Hoff.
  destruct Hon as ((_ & Hon) & _). destruct Hoff as (_ & _ & Hoff & _).
  split.
  - apply Hon. apply (catalog_entries "BTCUSDT"). by left.
  - apply (Hoff (OtherException "Connection timed out")). reflexivity.
Defined.









(** C3, a stop-limit order with a negative quantity and negative prices. *)
Lemma place_stop_limit_order_request_witness :
  submitted (trace (place_stop_limit_order scripted "btcusdt" "sell" (-1) (-2) (-3)
                                           "gtc" testnet)) =
    [<["symbol" := VStr "BTCUSDT"]>
       (<["side" := VStr "SELL"]>
          (<["type" := VStr "STOP"]>
             (<["quantity" := VFloat (-1)]>
                (<["price" := VFloat (-3)]>
                   (<["stopPrice" := VFloat (-2)]>
                      (<["timeInForce" := VStr "GTC"]> ∅))))))].
Proof.
  pose proof (place_stop_limit_order_request
                scripted "btcusdt" "sell" (-1) (-2) (-3) "gtc" testnet) as H.
  cbv zeta in H. destruct H as (H & _).
  apply H.
  - apply list_elem_of_In. vm_compute. auto.
  - apply catalog_lists; [reflexivity|by left].
Defined.

(** C8, an exchange that answers a market and a limit order with
    [{algoId: 9001, status: "NEW"}]. *)
Lemma order_reply_without_keys_is_swallowed_witness :
  algo_reply !! "orderId" = None ∧
  result (place_market_order scripted "BTCUSDT" "BUY" 0.01 terse) = Ok None ∧
  submitted (trace (place_market_order scripted "BTCUSDT" "BUY" 0.01 terse)) =
    [market_params "BTCUSDT" "BUY" 0.01] ∧
  result (place_limit_order scripted "BTCUSDT" "BUY" 0.01 64000 "GTC" terse) =
    Ok None ∧
  submitted (trace (place_limit_order scripted "BTCUSDT" "BUY" 0.01 64000 "GTC"
                                      terse)) =
    [limit_params "BTCUSDT" "BUY" 0.01 64000 "GTC"].
Proof.
  assert (Hmiss : algo_reply !! "orderId" = None) by (vm_compute; reflexivity).
  pose proof (order_reply_without_keys_is_swallowed
                scripted "BTCUSDT" "BUY" 0.01 64000 "GTC" terse) as H.
  cbv zeta in H. destruct H as (H & _).
  destruct (H buy_is_a_side
              (catalog_lists "BTCUSDT" terse eq_refl (or_introl eq_refl))
              eq_refl algo_reply terse (or_introl Hmiss)) as [Hm Hl].
  destruct (Hm eq_refl) as (Hmr & Hms & _).
  destruct Hl as (Hlr & Hls & _);
    [reflexivity|apply list_elem_of_In; vm_compute; auto|reflexivity|].
  auto.
Defined.



(** C9, the account of the test network: the BNB entry, whose wallet balance
    is ["0.00000000"], is left out. *)
Lemma account_assets_strictly_positive_witness :
  ∃ (d : gmap string value) (assets : list value),
    result (get_account_balance scripted decimal_float testnet) =
      Ok (Some (VDict d)) ∧
    d !! "assets" = Some (VList assets) ∧
    length assets = 2%nat ∧
    ∀ entry, entry ∈ assets →
      ∃ (e : gmap string value) (balance : value) (amount : float),
        entry = VDict e ∧ e !! "balance" = Some balance ∧
        decimal_float balance = Ok amount ∧ (0 <? amount)%float = true.
Proof.
  destruct (result (get_account_balance scripted decimal_float testnet))
    as [[snapshot|]|] eqn:Hrun; try (vm_compute in Hrun; discriminate).
  destruct (account_assets_strictly_positive scripted decimal_float testnet
              snapshot Hrun) as (d & assets & -> & Hassets & Hpositive).
  exists d, assets. split; [reflexivity|]. split; [exact Hassets|].
  split; [|exact Hpositive].
  vm_compute in Hrun. injection Hrun as <-.
  vm_compute in Hassets. injection Hassets as <-. reflexivity.
Defined.

(** C10, the positions of the test network: the ETHUSDT entry, whose amount
    is ["0.000"], is left out. *)
Lemma positions_nonzero_witness :
  ∃ positions : list value,
    result (get_position_info scripted decimal_float (Some "btcusdt") testnet) =
      Ok (Some positions) ∧
    length positions = 2%nat ∧
    ∀ p, p ∈ positions →
      ∃ (raw : value) (amount : float),
        py_subscript p "positionAmt" = Ok raw ∧
        decimal_float raw = Ok amount ∧ (amount =? 0)%float = false.
Proof.
  destruct (result (get_position_info scripted decimal_float (Some "btcusdt")
                                      testnet))
    as [[positions|]|] eqn:Hrun; try (vm_compute in Hrun; discriminate).
  exists positions. split; [reflexivity|].
  split; [vm_compute in Hrun; injection Hrun as <-; reflexivity|].
  exact (positions_nonzero scripted decimal_float (Some "btcusdt") testnet
           positions Hrun).
Defined.

(** * Further properties of the order operations *)

Section OrderOperations.
Context {World : Type} (client : Client World).

#[local] Arguments _validate_symbol : simpl never.

Ltac checked_symbol symbol w :=
  let b := fresh "b" in
  let tv := fresh "tv" in
  let wv := fresh "wv" in
  let Hrun := fresh "Hrun" in
  let Hnone := fresh "Hnone" in
  destruct (validate_symbol_shape client (upper symbol) w)
    as (b & tv & wv & Hrun & Hnone);
  unfold mbind, M_bind; cbv beta;
  rewrite Hrun in *; cbv beta iota; cbn [result trace final] in *.

Ltac checked_side Hside := rewrite (bool_decide_eq_true_2 _ Hside); cbn [negb].
Ltac refused_side Hside := rewrite (bool_decide_eq_false_2 _ Hside); cbn [negb].

(** Closing the cases of a run: each part of the goal holds outright. *)
Ltac settle :=
  repeat split;
  first [done | by eauto | by left | by right | by intros ? [=]].

(** The [try] block of a market or limit order, case by case. *)
Ltac exchange_reply :=
  run_bot;
  destruct (futures_create_order _ _ _) as [[reply|err] wr]; cbn;
  [destruct (py_subscript reply "orderId") as [order_id|err] eqn:Hid; cbn;
   [destruct (py_subscript reply "status") as [status|err] eqn:Hstatus; cbn|]|];
  try (destruct err; cbn).

(** The [try] block of a stop-limit order, case by case. *)
Ltac stop_reply :=
  run_bot;
  destruct (futures_create_order _ _ _) as [[reply|err] wr]; cbn;
  [destruct (py_contains_key "orderId" reply) as [[|]|err] eqn:Hhas; cbn;
   [destruct (py_subscript reply "orderId") as [order_id|err] eqn:Hid; cbn
   |destruct (py_contains_key "algoId" reply) as [[|]|err'] eqn:Halgo; cbn;
    [destruct (py_subscript reply "algoId") as [algo_id|err''] eqn:Hid; cbn| |]
   |]|].

(** X1. The case of the symbol, of the side and of the time in force does
    not matter to the three order operations: each runs as on the upper-case
    forms of its arguments. *)
Theorem order_operations_ignore_case
    (symbol side : string) (quantity price stop_price limit_price : float)
    (time_in_force : string) (w : World) :
  place_market_order client (upper symbol) (upper side) quantity w =
    place_market_order client symbol side quantity w ∧
  place_limit_order client (upper symbol) (upper side) quantity price
                    (upper time_in_force) w =
    place_limit_order client symbol side quantity price time_in_force w ∧
  place_stop_limit_order client (upper symbol) (upper side) quantity stop_price
                         limit_price (upper time_in_force) w =
    place_stop_limit_order client symbol side quantity stop_price limit_price
                           time_in_force w.
Proof.
  unfold place_market_order, place_limit_order, place_stop_limit_order.
  rewrite !upper_idempotent. done.
Qed.

(** X2. The three order operations never raise, whatever the exchange does:
    each returns [None] or an order. Each hands at most one request to
    [futures_create_order], its own, and has handed it over whenever it
    returns an order. *)
Theorem order_operations_never_raise
    (symbol side : string) (quantity price stop_price limit_price : float)
    (time_in_force : string) (w : World) :
  let m := place_market_order client symbol side quantity w in
  let l := place_limit_order client symbol side quantity price time_in_force w in
  let s := place_stop_limit_order client symbol side quantity stop_price
                                  limit_price time_in_force w in
  let market := market_params (upper symbol) (upper side) quantity in
  let limit := limit_params (upper symbol) (upper side) quantity price
                            (upper time_in_force) in
  let stop := stop_limit_params (upper symbol) (upper side) quantity stop_price
                                limit_price (upper time_in_force) in
  ((∃ o, result m = Ok o) ∧
   (submitted (trace m) = [] ∨ submitted (trace m) = [market]) ∧
   (∀ order, result m = Ok (Some order) → submitted (trace m) = [market])) ∧
  ((∃ o, result l = Ok o) ∧
   (submitted (trace l) = [] ∨ submitted (trace l) = [limit]) ∧
   (∀ order, result l = Ok (Some order) → submitted (trace l) = [limit])) ∧
  ((∃ o, result s = Ok o) ∧
   (submitted (trace s) = [] ∨ submitted (trace s) = [stop]) ∧
   (∀ order, result s = Ok (Some order) → submitted (trace s) = [stop])).
Proof.
  cbv zeta.
  unfold place_market_order, place_limit_order, place_stop_limit_order.
  destruct (decide (upper side ∈ ["BUY"; "SELL"])) as [Hside|Hside].
  - checked_side Hside. checked_symbol symbol w.
    destruct b; cbn [negb];
      [|run_bot; rewrite !submitted_app, Hnone; cbn; settle].
    split; [|split].
    + destruct (quantity <=? 0)%float;
        [run_bot; rewrite !submitted_app, Hnone; cbn; settle|].
      exchange_reply; rewrite !submitted_app, Hnone; cbn; settle.
    + destruct (quantity <=? 0)%float;
        [run_bot; rewrite !submitted_app, Hnone; cbn; settle|].
      destruct (price <=? 0)%float;
        [run_bot; rewrite !submitted_app, Hnone; cbn; settle|].
      destruct (bool_decide _); cbn [negb];
        [|run_bot; rewrite !submitted_app, Hnone; cbn; settle].
      exchange_reply; rewrite !submitted_app, Hnone; cbn; settle.
    + stop_reply; rewrite !submitted_app, Hnone; cbn; settle.
  - refused_side Hside. run_bot. settle.
Qed.


(** X4. An order that the exchange answers with a dict holding ["orderId"]
    and ["status"] is returned as the exchange sent it, by
    [place_market_order] and by [place_limit_order]; the world is left as
    the exchange left it and five records are logged after the call: the
    reply, the announcement, the order id and the status. *)
Theorem accepted_order_is_returned
    (symbol side : string) (quantity price : float) (time_in_force : string)
    (w w' : World) (d : gmap string value) (order_id status : value) :
  let m := place_market_order client symbol side quantity w in
  let l := place_limit_order client symbol side quantity price time_in_force w in
  let v := _validate_symbol client (upper symbol) w in
  let market := market_params (upper symbol) (upper side) quantity in
  let limit := limit_params (upper symbol) (upper side) quantity price
                            (upper time_in_force) in
  upper side ∈ ["BUY"; "SELL"] → result v = Ok true →
  (quantity <=? 0)%float = false →
  d !! "orderId" = Some order_id → d !! "status" = Some status →
  (futures_create_order client market (final v) = (Ok (VDict d), w') →
   m = Run (Ok (Some (VDict d)))
           (trace v ++
            [Log INFO [Lit "API Request - Order type: "; Fmt (VStr "MARKET")];
             Log INFO [Lit "Params: "; Json (VDict market)];
             Call (FuturesCreateOrder market);
             Log INFO [Lit "API Response: "; Json (VDict d)];
             Log INFO [Lit "Market order is placed."];
             Log INFO [Lit "Order ID: "; Fmt order_id];
             Log INFO [Lit "Status: "; Fmt status]])
           w') ∧
  ((price <=? 0)%float = false →
   upper time_in_force ∈ ["GTC"; "IOC"; "FOK"] →
   futures_create_order client limit (final v) = (Ok (VDict d), w') →
   l = Run (Ok (Some (VDict d)))
           (trace v ++
            [Log INFO [Lit "API Request - Order type: "; Fmt (VStr "LIMIT")];
             Log INFO [Lit "Params: "; Json (VDict limit)];
             Call (FuturesCreateOrder limit);
             Log INFO [Lit "API Response: "; Json (VDict d)];
             Log INFO [Lit "Limit order has been placed"];
             Log INFO [Lit "Order ID: "; Fmt order_id];
             Log INFO [Lit "Status: "; Fmt status]])
           w').
Proof.
  cbv zeta. intros Hside Hv Hq Hid Hstatus. split.
  - intros Hreply. unfold place_market_order. checked_side Hside.
    checked_symbol symbol w. injection Hv as ->. cbn [negb]. rewrite Hq.
    run_bot. rewrite Hreply. cbn. rewrite !py_subscript_dict, Hid. cbn.
    rewrite Hstatus. done.
  - intros Hp Htif Hreply. unfold place_limit_order. checked_side Hside.
    checked_symbol symbol w. injection Hv as ->. cbn [negb]. rewrite Hq, Hp.
    rewrite (bool_decide_eq_true_2 _ Htif). cbn [negb].
    run_bot. rewrite Hreply. cbn. rewrite !py_subscript_dict, Hid. cbn.
    rewrite Hstatus. done.
Qed.


(** X6. A stop-limit order that the exchange answers with a dict is
    returned as the exchange sent it, whatever its keys: unlike the market
    and limit orders it needs neither ["orderId"] nor ["status"]. The last
    record logged is the order id when the reply has one, else the algo id
    when it has one, else a warning. *)
Theorem stop_limit_reply_is_returned
    (symbol side : string) (quantity stop_price limit_price : float)
    (time_in_force : string) (w w' : World) (d : gmap string value) :
  let s := place_stop_limit_order client symbol side quantity stop_price
                                  limit_price time_in_force w in
  let v := _validate_symbol client (upper symbol) w in
  let stop := stop_limit_params (upper symbol) (upper side) quantity stop_price
                                limit_price (upper time_in_force) in
  upper side ∈ ["BUY"; "SELL"] → result v = Ok true →
  futures_create_order client stop (final v) = (Ok (VDict d), w') →
  s = Run (Ok (Some (VDict d)))
          (trace v ++
           [Log INFO [Lit "API Request - Order type: "; Fmt (VStr "STOP_LIMIT")];
            Log INFO [Lit "Params: "; Json (VDict stop)];
            Call (FuturesCreateOrder stop);
            Log INFO [Lit "API Response: "; Json (VDict d)];
            Log INFO [Lit "Stop-limit order placed successfully"];
            match d !! "orderId", d !! "algoId" with
            | Some order_id, _ => Log INFO [Lit "Order ID: "; Fmt order_id]
            | None, Some algo_id => Log INFO [Lit "Algo ID: "; Fmt algo_id]
            | None, None =>
                Log WARNING [Lit "Order placed but no orderId/algoId returned"]
            end])
          w'.
Proof.
  cbv zeta. intros Hside Hv Hreply. unfold place_stop_limit_order.
  checked_side Hside. checked_symbol symbol w. injection Hv as ->. cbn [negb].
  run_bot. rewrite Hreply. cbn. unfold py_contains_key.
  rewrite !py_subscript_dict.
  destruct (d !! "orderId") as [order_id|]; cbn; [done|].
  destruct (d !! "algoId") as [algo_id|]; cbn; done.
Qed.

(** X7. [place_stop_limit_order] has one handler for everything: whatever
    [futures_create_order] raises, a [BinanceAPIException] included, it
    returns [None] with the record "Error placing stop-limit order" and the
    text of the exception. The same handler takes a reply in which
    ["orderId"] cannot be looked for (a reply that is no container): the
    order has been placed and announced, and [None] is returned. *)
Theorem stop_limit_failure_is_generic
    (symbol side : string) (quantity stop_price limit_price : float)
    (time_in_force : string) (w w' : World) (e : exn) :
  let s := place_stop_limit_order client symbol side quantity stop_price
                                  limit_price time_in_force w in
  let v := _validate_symbol client (upper symbol) w in
  let stop := stop_limit_params (upper symbol) (upper side) quantity stop_price
                                limit_price (upper time_in_force) in
  upper side ∈ ["BUY"; "SELL"] → result v = Ok true →
  (futures_create_order client stop (final v) = (Raise e, w') →
   s = Run (Ok None)
           (trace v ++
            [Log INFO [Lit "API Request - Order type: "; Fmt (VStr "STOP_LIMIT")];
             Log INFO [Lit "Params: "; Json (VDict stop)];
             Call (FuturesCreateOrder stop);
             Log ERROR [Lit "Error placing stop-limit order: "; StrExn e]])
           w') ∧
  (∀ reply, futures_create_order client stop (final v) = (Ok reply, w') →
   py_contains_key "orderId" reply = Raise e →
   s = Run (Ok None)
           (trace v ++
            [Log INFO [Lit "API Request - Order type: "; Fmt (VStr "STOP_LIMIT")];
             Log INFO [Lit "Params: "; Json (VDict stop)];
             Call (FuturesCreateOrder stop);
             Log INFO [Lit "API Response: "; Json reply];
             Log INFO [Lit "Stop-limit order placed successfully"];
             Log ERROR [Lit "Error placing stop-limit order: "; StrExn e]])
           w').
Proof.
  cbv zeta. intros Hside Hv. split.
  - intros Hreply. unfold place_stop_limit_order.
    checked_side Hside. checked_symbol symbol w. injection Hv as ->.
    cbn [negb]. run_bot. rewrite Hreply. done.
  - intros reply Hreply Hhas. unfold place_stop_limit_order.
    checked_side Hside. checked_symbol symbol w. injection Hv as ->.
    cbn [negb]. run_bot. rewrite Hreply. cbn. rewrite Hhas. done.
Qed.

Ltac nothing_returned :=
  repeat split; exists None; (split; [done|by intros ? [=]]).

(** What the three order operations submit, and under which checks. *)
Lemma order_submissions
    (symbol side : string) (quantity price stop_price limit_price : float)
    (time_in_force : string) (w : World) :
  let m := place_market_order client symbol side quantity w in
  let l := place_limit_order client symbol side quantity price time_in_force w in
  let s := place_stop_limit_order client symbol side quantity stop_price
                                  limit_price time_in_force w in
  (submitted (trace m) = [] ∨
   submitted (trace m) = [market_params (upper symbol) (upper side) quantity] ∧
   upper side ∈ ["BUY"; "SELL"] ∧ (quantity <=? 0)%float = false) ∧
  (submitted (trace l) = [] ∨
   submitted (trace l) = [limit_params (upper symbol) (upper side) quantity price
                                       (upper time_in_force)] ∧
   upper side ∈ ["BUY"; "SELL"] ∧ (quantity <=? 0)%float = false ∧
   (price <=? 0)%float = false ∧ upper time_in_force ∈ ["GTC"; "IOC"; "FOK"]) ∧
  (submitted (trace s) = [] ∨
   submitted (trace s) = [stop_limit_params (upper symbol) (upper side) quantity
                                            stop_price limit_price
                                            (upper time_in_force)] ∧
   upper side ∈ ["BUY"; "SELL"]).
Proof.
  cbv zeta.
  unfold place_market_order, place_limit_order, place_stop_limit_order.
  destruct (decide (upper side ∈ ["BUY"; "SELL"])) as [Hside|Hside].
  - checked_side Hside. checked_symbol symbol w.
    destruct b; cbn [negb];
      [|run_bot; rewrite !submitted_app, Hnone; cbn; settle].
    split; [|split].
    + destruct (quantity <=? 0)%float eqn:Hq;
        [run_bot; rewrite !submitted_app, Hnone; cbn; settle|].
      exchange_reply; rewrite !submitted_app, Hnone; cbn; right; settle.
    + destruct (quantity <=? 0)%float eqn:Hq;
        [run_bot; rewrite !submitted_app, Hnone; cbn; settle|].
      destruct (price <=? 0)%float eqn:Hp;
        [run_bot; rewrite !submitted_app, Hnone; cbn; settle|].
      destruct (decide (upper time_in_force ∈ ["GTC"; "IOC"; "FOK"]))
        as [Htif|Htif].
      * rewrite (bool_decide_eq_true_2 _ Htif). cbn [negb].
        exchange_reply; rewrite !submitted_app, Hnone; cbn; right; settle.
      * rewrite (bool_decide_eq_false_2 _ Htif). cbn [negb].
        run_bot; rewrite !submitted_app, Hnone; cbn; settle.
    + stop_reply; rewrite !submitted_app, Hnone; cbn; right; settle.
  - refused_side Hside. run_bot. settle.
Qed.

(** The market and limit operations return [None] or a dict with an id and
    a status; they do not raise. *)
Lemma returned_orders_have_keys
    (symbol side : string) (quantity price : float) (time_in_force : string)
    (w : World) :
  let m := place_market_order client symbol side quantity w in
  let l := place_limit_order client symbol side quantity price time_in_force w in
  let with_keys (o : option value) :=
    ∀ order, o = Some order →
      ∃ d order_id order_status,
        order = VDict d ∧ d !! "orderId" = Some order_id ∧
        d !! "status" = Some order_status in
  (∃ o, result m = Ok o ∧ with_keys o) ∧ (∃ o, result l = Ok o ∧ with_keys o).
Proof.
  cbv zeta.
  unfold place_market_order, place_limit_order.
  destruct (decide (upper side ∈ ["BUY"; "SELL"])) as [Hside|Hside].
  - checked_side Hside. checked_symbol symbol w.
    destruct b; cbn [negb]; [|run_bot; nothing_returned].
    split.
    + destruct (quantity <=? 0)%float; [run_bot; nothing_returned|].
      exchange_reply; try nothing_returned.
      eexists; (split; [done|]); intros ? [= <-].
      apply py_subscript_ok in Hid as (d & -> & Hid).
      apply py_subscript_ok in Hstatus as (d' & [= <-] & Hstatus).
      by eauto 6.
    + destruct (quantity <=? 0)%float; [run_bot; nothing_returned|].
      destruct (price <=? 0)%float; [run_bot; nothing_returned|].
      destruct (bool_decide _); cbn [negb]; [|run_bot; nothing_returned].
      exchange_reply; try nothing_returned.
      eexists; (split; [done|]); intros ? [= <-].
      apply py_subscript_ok in Hid as (d & -> & Hid).
      apply py_subscript_ok in Hstatus as (d' & [= <-] & Hstatus).
      by eauto 6.
  - refused_side Hside. run_bot. nothing_returned.
Qed.

End OrderOperations.

Section Catalogue.
Context {World : Type} (client : Client World).

Lemma mapM_raises {A B : Type} (f : A → outcome B) (l : list A) (x : A) (e : exn) :
  x ∈ l → f x = Raise e → ∃ e', mapM f l = Raise e'.
Proof.
  intros Hin Hx. induction l as [|y l IH]; [by apply elem_of_nil in Hin|].
  change (mapM f (y :: l)) with (f y ≫= λ z, mapM f l ≫= λ k, mret (z :: k)).
  apply elem_of_cons in Hin as [<-|Hin].
  - rewrite Hx. by eexists.
  - destruct (IH Hin) as [e' ->]. destruct (f y); by eexists.
Qed.

(** X8. The catalogue is all or nothing. When the reply of the exchange has
    no ["symbols"], or one entry of its listing has no ["symbol"], no symbol
    at all is valid, those of the well-formed entries included:
    [_validate_symbol] answers [False] and logs its error record. *)
Theorem malformed_catalogue_validates_nothing
    (symbol : string) (w : World) (info : value) :
  let r := _validate_symbol client symbol w in
  (futures_exchange_info client w).1 = Ok info →
  ((∃ e, py_subscript info "symbols" = Raise e) ∨
   (∃ listing entries entry e,
       py_subscript info "symbols" = Ok listing ∧
       py_iter listing = Ok entries ∧
       entry ∈ entries ∧ py_subscript entry "symbol" = Raise e)) →
  result r = Ok false ∧
  trace r = [Call FuturesExchangeInfo; Log ERROR msg_symbol_verification_failed].
Proof.
  cbv zeta. intros Hinfo Hbad. rewrite validate_symbol_run, Hinfo. cbn.
  assert (∃ e, listed_symbols info = Raise e) as [e ->]; [|done].
  unfold listed_symbols, mbind, outcome_bind.
  destruct Hbad as [[e ->]|(listing & entries & entry & e & -> & -> & Hin & He)];
    [eauto|].
  eapply mapM_raises; eauto.
Qed.

End Catalogue.

(** * Further properties of the account views *)

Section AccountViews.
Context {World : Type} (client : Client World).
Context (py_float : value → outcome float).

Lemma positive_assets_complete (entries assets : list value) :
  positive_assets py_float entries = Ok assets →
  length assets = length (List.filter (wallet_positive py_float) entries) ∧
  ∀ asset, asset ∈ entries → wallet_positive py_float asset = true →
    ∃ name wallet available,
      py_subscript asset "asset" = Ok name ∧
      py_subscript asset "walletBalance" = Ok wallet ∧
      py_subscript asset "availableBalance" = Ok available ∧
      VDict (<["asset" := name]>
               (<["balance" := wallet]> (<["available" := available]> ∅)))
        ∈ assets.
Proof.
  revert assets. induction entries as [|a rest IH]; intros assets.
  - intros [= <-]. split; [done|]. intros asset Hin. by apply elem_of_nil in Hin.
  - cbn [positive_assets List.filter]. unfold wallet_positive at 1 3.
    unfold mbind, outcome_bind, mret, outcome_ret.
    destruct (py_subscript a "walletBalance") as [wallet|] eqn:Hwallet;
      [|discriminate].
    destruct (py_float wallet) as [amount|] eqn:Hamount; [|discriminate].
    destruct (0 <? amount)%float eqn:Hpos.
    + destruct (py_subscript a "asset") as [name|] eqn:Hname; [|discriminate].
      destruct (py_subscript a "availableBalance") as [available|] eqn:Havail;
        [|discriminate].
      destruct (positive_assets py_float rest) as [others|]; [|discriminate].
      intros [= <-]. destruct (IH others eq_refl) as [Hlen Hall].
      split; [cbn; by rewrite Hlen|].
      intros asset [->|Hin]%elem_of_cons Hasset.
      * exists name, wallet, available. rewrite Hname, Hwallet, Havail.
        repeat split. apply elem_of_cons. by left.
      * destruct (Hall asset Hin Hasset) as (n & x & y & ? & ? & ? & ?).
        exists n, x, y. repeat split; try done. apply elem_of_cons. by right.
    + intros Hrest. destruct (IH assets Hrest) as [Hlen Hall].
      split; [done|].
      intros asset [->|Hin]%elem_of_cons Hasset; [|by apply Hall].
      unfold wallet_positive, mbind, outcome_bind in Hasset.
      rewrite Hwallet, Hamount, Hpos in Hasset. discriminate.
Qed.

(** X9. The snapshot of [get_account_balance] drops no asset: when the
    exchange answers with a dict whose ["assets"] is a list and a snapshot is
    returned, every asset of the reply whose wallet balance converts to a
    float above zero has its entry [{asset, balance, available}] in the
    snapshot, copied from the reply, and the snapshot has as many entries as
    the reply has such assets. *)
Theorem positive_assets_are_all_listed
    (w w' : World) (acct : gmap string value) (entries : list value)
    (snapshot : value) :
  futures_account client w = (Ok (VDict acct), w') →
  acct !! "assets" = Some (VList entries) →
  result (get_account_balance client py_float w) = Ok (Some snapshot) →
  ∃ (d : gmap string value) (assets : list value),
    snapshot = VDict d ∧ d !! "assets" = Some (VList assets) ∧
    length assets = length (List.filter (wallet_positive py_float) entries) ∧
    ∀ asset, asset ∈ entries → wallet_positive py_float asset = true →
      ∃ name wallet available,
        py_subscript asset "asset" = Ok name ∧
        py_subscript asset "walletBalance" = Ok wallet ∧
        py_subscript asset "availableBalance" = Ok available ∧
        VDict (<["asset" := name]>
                 (<["balance" := wallet]> (<["available" := available]> ∅)))
          ∈ assets.
Proof.
  intros Hreply Hassets. unfold get_account_balance. run_bot.
  rewrite Hreply. cbn. unfold py_get. cbn. rewrite Hassets. cbn.
  unfold py_iter. cbn.
  destruct (positive_assets py_float entries) as [assets|] eqn:Hpos; cbn;
    [|done].
  intros [= <-]. eexists _, assets. split; [done|].
  split; [by simplify_map_eq|]. by apply positive_assets_complete.
Qed.

(** X10. The totals of the snapshot are those of the reply, and a key the
    reply does not have is read as Python's [get] reads it: an account dict
    without ["assets"] gives a snapshot with no asset, in which each total
    the reply lacks is [None]. No conversion to float takes place. *)
Theorem account_without_assets
    (w w' : World) (acct : gmap string value) :
  futures_account client w = (Ok (VDict acct), w') →
  acct !! "assets" = None →
  get_account_balance client py_float w =
    Run (Ok (Some (VDict
                     (<["totalWalletBalance" :=
                          default VNone (acct !! "totalWalletBalance")]>
                        (<["availableBalance" :=
                             default VNone (acct !! "availableBalance")]>
                           (<["assets" := VList []]> ∅))))))
        [Call FuturesAccount;
         Log INFO [Lit "Account balance has been retrieved."]]
        w'.
Proof.
  intros Hreply Hassets. unfold get_account_balance. run_bot.
  rewrite Hreply. cbn. unfold py_get. cbn. rewrite Hassets. cbn.
  unfold py_iter. cbn. done.
Qed.

Lemma positive_assets_poisoned (entries : list value) (asset : value) :
  asset ∈ entries →
  (∃ e, py_subscript asset "walletBalance" ≫= py_float = Raise e) ∨
  (wallet_positive py_float asset = true ∧
   ((∃ e, py_subscript asset "asset" = Raise e) ∨
    (∃ e, py_subscript asset "availableBalance" = Raise e))) →
  ∃ e, positive_assets py_float entries = Raise e.
Proof.
  intros Hin Hbad. induction entries as [|a rest IH];
    [by apply elem_of_nil in Hin|].
  cbn [positive_assets]. unfold mbind, outcome_bind, mret, outcome_ret.
  apply elem_of_cons in Hin as [<-|Hin].
  - unfold wallet_positive, mbind, outcome_bind in Hbad.
    destruct (py_subscript asset "walletBalance") as [wallet|];
      [|by eexists].
    destruct (py_float wallet) as [amount|]; [|by eexists].
    destruct Hbad as [[e [=]]|[Hpos Hbad]]. rewrite Hpos.
    destruct Hbad as [[e ->]|[e He]]; [by eexists|].
    destruct (py_subscript asset "asset"); [|by eexists].
    rewrite He. by eexists.
  - destruct (IH Hin) as [e' He'].
    destruct (py_subscript a "walletBalance") as [wallet|]; [|by eexists].
    destruct (py_float wallet) as [amount|]; [|by eexists].
    destruct (0 <? amount)%float; [|by eexists].
    destruct (py_subscript a "asset"); [|by eexists].
    destruct (py_subscript a "availableBalance"); [|by eexists].
    rewrite He'. by eexists.
Qed.

(** X11. [get_account_balance] never raises and makes one client call, the
    account query, followed by one log record. One malformed asset fails the
    whole query: when the wallet balance of some asset of the reply is
    missing or does not convert to a float, or an asset with a positive
    balance lacks ["asset"] or ["availableBalance"], the result is [None],
    the other assets notwithstanding. *)
Theorem malformed_asset_fails_snapshot (w : World) :
  let r := get_account_balance client py_float w in
  ((∃ e, result r = Ok None ∧
         trace r = [Call FuturesAccount;
                    Log ERROR [Lit "Error getting account balance: "; StrExn e]]) ∨
   (∃ snapshot, result r = Ok (Some snapshot) ∧
         trace r = [Call FuturesAccount;
                    Log INFO [Lit "Account balance has been retrieved."]])) ∧
  final r = (futures_account client w).2 ∧
  (∀ acct entries asset,
     (futures_account client w).1 = Ok (VDict acct) →
     acct !! "assets" = Some (VList entries) →
     asset ∈ entries →
     (∃ e, py_subscript asset "walletBalance" ≫= py_float = Raise e) ∨
     (wallet_positive py_float asset = true ∧
      ((∃ e, py_subscript asset "asset" = Raise e) ∨
       (∃ e, py_subscript asset "availableBalance" = Raise e))) →
     result r = Ok None).
Proof.
  cbv zeta. unfold get_account_balance. run_bot.
  destruct (futures_account client w) as [[account|e] w']; cbn;
    [|split; [by eauto|]; split; [done|]; by intros ????].
  split; [|split].
  - destruct (py_get account "totalWalletBalance" VNone); cbn; [|by eauto].
    destruct (py_get account "availableBalance" VNone); cbn; [|by eauto].
    destruct (py_get account "assets" (VList [])) as [listed|]; cbn;
      [|by eauto].
    destruct (py_iter listed) as [entries|]; cbn; [|by eauto].
    destruct (positive_assets py_float entries); cbn; by eauto.
  - destruct (py_get account "totalWalletBalance" VNone); cbn; [|done].
    destruct (py_get account "availableBalance" VNone); cbn; [|done].
    destruct (py_get account "assets" (VList [])) as [listed|]; cbn; [|done].
    destruct (py_iter listed) as [entries|]; cbn; [|done].
    destruct (positive_assets py_float entries); cbn; done.
  - intros acct entries asset [= ->] Hassets Hin Hbad.
    unfold py_get. cbn. rewrite Hassets. cbn. unfold py_iter. cbn.
    destruct (positive_assets_poisoned entries asset Hin Hbad) as [e ->].
    done.
Qed.

Lemma active_positions_filter (entries active : list value) :
  active_positions py_float entries = Ok active →
  active = List.filter (position_open py_float) entries.
Proof.
  revert active. induction entries as [|p rest IH]; intros active.
  - by intros [= <-].
  - cbn [active_positions List.filter]. unfold position_open at 1.
    unfold mbind, outcome_bind, mret, outcome_ret.
    destruct (py_subscript p "positionAmt") as [raw|]; [|discriminate].
    destruct (py_float raw) as [amount|]; [|discriminate].
    destruct (active_positions py_float rest) as [others|]; [|discriminate].
    rewrite (IH others eq_refl).
    destruct (amount =? 0)%float; by intros [= <-].
Qed.

Lemma active_positions_returns (entries : list value) :
  (∀ p, p ∈ entries →
        ∃ amount, py_subscript p "positionAmt" ≫= py_float = Ok amount) →
  ∃ active, active_positions py_float entries = Ok active.
Proof.
  induction entries as [|p rest IH]; intros Hall; [by eexists|].
  cbn [active_positions].
  destruct (Hall p) as [amount Hp]; [apply elem_of_cons; by left|].
  destruct IH as [others Hrest];
    [intros q Hq; apply Hall, elem_of_cons; by right|].
  unfold mbind, outcome_bind, mret, outcome_ret in *.
  destruct (py_subscript p "positionAmt") as [raw|]; [|discriminate].
  rewrite Hp, Hrest. by eexists.
Qed.

(** X12. The positions returned by [get_position_info] are the entries of
    the reply themselves, in the order of the reply, without those whose
    amount is zero: when the reply is a list in which every ["positionAmt"]
    converts to a float, the result is that list filtered, the count logged
    is its length, and a reply in which every amount is zero gives the empty
    list, not [None]. *)
Theorem positions_are_the_filtered_reply
    (symbol : option string) (w w' : World) (entries : list value) :
  let scope :=
    match symbol with
    | Some s => if bool_decide (s = "") then None else Some (upper s)
    | None => None
    end in
  futures_position_information client scope w = (Ok (VList entries), w') →
  (∀ p, p ∈ entries →
        ∃ amount, py_subscript p "positionAmt" ≫= py_float = Ok amount) →
  get_position_info client py_float symbol w =
    Run (Ok (Some (List.filter (position_open py_float) entries)))
        [Call (FuturesPositionInformation scope);
         Log INFO
           [Lit "Retrieved ";
            Fmt (VInt (Z.of_nat (length (List.filter (position_open py_float) entries))));
            Lit " active positions"]]
        w'.
Proof.
  cbv zeta. intros Hreply Hall. unfold get_position_info. run_bot.
  rewrite Hreply. cbn. unfold py_iter. cbn.
  destruct (active_positions_returns entries Hall) as [active Hactive].
  rewrite Hactive. cbn. by rewrite (active_positions_filter _ _ Hactive).
Qed.

(** X13. [get_position_info] never raises and makes one client call, the
    position query, followed by one log record. The query is scoped to the
    upper-case form of the symbol when a non-empty symbol is given, and is
    unscoped when the symbol is [None] or the empty string. *)
Theorem position_query_scope (symbol : option string) (w : World) :
  let r := get_position_info client py_float symbol w in
  (∃ scope record,
     trace r = [Call (FuturesPositionInformation scope); record] ∧
     final r = (futures_position_information client scope w).2 ∧
     (symbol = None ∨ symbol = Some "" → scope = None) ∧
     (∀ s, symbol = Some s → s ≠ "" → scope = Some (upper s)) ∧
     ((∃ e, result r = Ok None ∧
            record = Log ERROR [Lit "Error getting position info: "; StrExn e]) ∨
      (∃ positions, result r = Ok (Some positions) ∧
            record = Log INFO [Lit "Retrieved ";
                               Fmt (VInt (Z.of_nat (length positions)));
                               Lit " active positions"]))).
Proof.
  cbv zeta. unfold get_position_info. run_bot.
  set (scope := match symbol with
                | Some s => if bool_decide (s = "") then None else Some (upper s)
                | None => None
                end).
  assert (Hnone : symbol = None ∨ symbol = Some "" → scope = None).
  { intros [-> | ->]; done. }
  assert (Hsome : ∀ s, symbol = Some s → s ≠ "" → scope = Some (upper s)).
  { intros s -> Hs. unfold scope. by rewrite bool_decide_eq_false_2. }
  clearbody scope. exists scope.
  destruct (futures_position_information client scope w) as [[reply|e] w'];
    cbn; [|eexists; repeat split; by eauto].
  destruct (py_iter reply) as [entries|]; cbn;
    [|eexists; repeat split; by eauto].
  destruct (active_positions py_float entries); cbn;
    eexists; repeat split; by eauto.
Qed.

End AccountViews.

(** * Further runs against the scripted exchange *)

Lemma sell_is_a_side : upper "SELL" ∈ ["BUY"; "SELL"].
Proof. apply list_elem_of_In. vm_compute. auto. Qed.

Lemma gtc_is_a_time_in_force : upper "GTC" ∈ ["GTC"; "IOC"; "FOK"].
Proof. apply list_elem_of_In. vm_compute. auto. Qed.

(** X4, a market order on the test network. *)
Lemma accepted_order_is_returned_witness :
  result (place_market_order scripted "BTCUSDT" "BUY" 0.01 testnet) =
    Ok (Some (VDict (<["orderId" := VInt 4051]>
                       (<["status" := VStr "NEW"]>
                          (market_params "BTCUSDT" "BUY" 0.01))))).
Proof.
  pose proof (accepted_order_is_returned
                scripted "BTCUSDT" "BUY" 0.01 64000 "GTC" testnet testnet
                (<["orderId" := VInt 4051]>
                   (<["status" := VStr "NEW"]>
                      (market_params "BTCUSDT" "BUY" 0.01)))
                (VInt 4051) (VStr "NEW")
                buy_is_a_side
                (catalog_lists "BTCUSDT" testnet eq_refl (or_introl eq_refl))
                eq_refl) as H.
  cbv zeta in H. destruct H as [Hm _]; [vm_compute; reflexivity..|].
  rewrite Hm; reflexivity.
Defined.


(** X6, the scenario of the specification: a stop-limit order answered with
    an [algoId] and no [orderId]. *)
Lemma stop_limit_reply_is_returned_witness :
  result (place_stop_limit_order scripted "BTCUSDT" "SELL" 0.01 63900 63800 "GTC"
                                 terse) =
    Ok (Some (VDict algo_reply)) ∧
  last (trace (place_stop_limit_order scripted "BTCUSDT" "SELL" 0.01 63900 63800
                                      "GTC" terse)) =
    Some (Log INFO [Lit "Algo ID: "; Fmt (VInt 9001)]).
Proof.
  pose proof (stop_limit_reply_is_returned
                scripted "BTCUSDT" "SELL" 0.01 63900 63800 "GTC" terse terse
                algo_reply sell_is_a_side
                (catalog_lists "BTCUSDT" terse eq_refl (or_introl eq_refl))
                eq_refl) as H.
  cbv zeta in H. rewrite H. split; [reflexivity|].
  cbn [trace]. rewrite last_app. vm_compute. reflexivity.
Defined.

(** X7, a stop-limit order that the exchange refuses for lack of margin. *)
Lemma stop_limit_failure_is_generic_witness :
  result (place_stop_limit_order scripted "BTCUSDT" "SELL" 0.01 63900 63800 "GTC"
                                 (rejecting (-2019))) = Ok None ∧
  last (trace (place_stop_limit_order scripted "BTCUSDT" "SELL" 0.01 63900 63800
                                      "GTC" (rejecting (-2019)))) =
    Some (Log ERROR
            [Lit "Error placing stop-limit order: ";
             StrExn (BinanceAPIException 400 (-2019) "Margin is insufficient")]).
Proof.
  pose proof (stop_limit_failure_is_generic
                scripted "BTCUSDT" "SELL" 0.01 63900 63800 "GTC"
                (rejecting (-2019)) (rejecting (-2019))
                (BinanceAPIException 400 (-2019) "Margin is insufficient")
                sell_is_a_side
                (catalog_lists "BTCUSDT" (rejecting (-2019)) eq_refl
                               (or_introl eq_refl))) as H.
  cbv zeta in H. destruct H as [H _]. rewrite (H eq_refl).
  split; [reflexivity|]. cbn [trace]. rewrite last_app. reflexivity.
Defined.

(** X8, a catalogue that lists BTCUSDT and has a malformed second entry. *)
Lemma malformed_catalogue_validates_nothing_witness :
  result (_validate_symbol scripted "BTCUSDT" ragged) = Ok false.
Proof.
  pose proof (malformed_catalogue_validates_nothing
                scripted "BTCUSDT" ragged ragged_catalog eq_refl) as H.
  cbv zeta in H. destruct H as [H _]; [|exact H].
  right.
  exists (VList [symbol_entry "BTCUSDT"; VDict (<["pair" := VStr "ETHUSDT"]> ∅)]),
         [symbol_entry "BTCUSDT"; VDict (<["pair" := VStr "ETHUSDT"]> ∅)],
         (VDict (<["pair" := VStr "ETHUSDT"]> ∅)), (KeyError "symbol").
  split; [vm_compute; reflexivity|]. split; [reflexivity|].
  split; [|vm_compute; reflexivity].
  apply elem_of_cons. right. apply elem_of_cons. by left.
Defined.

(** X9, the account of the test network: two assets are kept. *)
Lemma positive_assets_are_all_listed_witness :
  ∃ (d : gmap string value) (assets : list value),
    result (get_account_balance scripted decimal_float testnet) =
      Ok (Some (VDict d)) ∧
    d !! "assets" = Some (VList assets) ∧
    length assets = 2%nat ∧
    VDict (<["asset" := VStr "BTC"]>
             (<["balance" := VStr "0.00120000"]>
                (<["available" := VStr "0.00120000"]> ∅))) ∈ assets.
Proof.
  destruct (result (get_account_balance scripted decimal_float testnet))
    as [[snapshot|]|] eqn:Hrun; try (vm_compute in Hrun; discriminate).
  destruct (positive_assets_are_all_listed
              scripted decimal_float testnet testnet
              (<["totalWalletBalance" := VStr "15000.00000000"]>
                 (<["availableBalance" := VStr "14250.50000000"]>
                    (<["assets" :=
                         VList [asset_entry "USDT" "15000.00000000" "14250.50000000";
                                asset_entry "BNB" "0.00000000" "0.00000000";
                                asset_entry "BTC" "0.00120000" "0.00120000"]]> ∅)))
              [asset_entry "USDT" "15000.00000000" "14250.50000000";
               asset_entry "BNB" "0.00000000" "0.00000000";
               asset_entry "BTC" "0.00120000" "0.00120000"]
              snapshot eq_refl)
    as (d & assets & -> & Hassets & Hlen & Hall);
    [vm_compute; reflexivity|exact Hrun|].
  exists d, assets. split; [reflexivity|]. split; [exact Hassets|].
  split; [rewrite Hlen; vm_compute; reflexivity|].
  destruct (Hall (asset_entry "BTC" "0.00120000" "0.00120000"))
    as (name & wallet & available & Hn & Hw & Ha & Hin).
  - apply elem_of_cons. right. apply elem_of_cons. right.
    apply elem_of_cons. by left.
  - vm_compute. reflexivity.
  - vm_compute in Hn, Hw, Ha.
    injection Hn as <-. injection Hw as <-. injection Ha as <-. exact Hin.
Defined.

(** X10, an account reply that is [{totalWalletBalance: "15000.00000000"}]. *)
Lemma account_without_assets_witness :
  result (get_account_balance scripted decimal_float frugal) =
    Ok (Some (VDict (<["totalWalletBalance" := VStr "15000.00000000"]>
                       (<["availableBalance" := VNone]>
                          (<["assets" := VList []]> ∅))))).
Proof.
  rewrite (account_without_assets scripted decimal_float frugal frugal
             bare_account eq_refl);
    [|vm_compute; reflexivity].
  cbn [result]. vm_compute. reflexivity.
Defined.

(** X12, the positions of the test network. *)
Lemma positions_are_the_filtered_reply_witness :
  result (get_position_info scripted decimal_float (Some "btcusdt") testnet) =
    Ok (Some [position_entry "BTCUSDT" "0.010" "64000.0";
              position_entry "BNBUSDT" "-2.50" "590.1"]).
Proof.
  rewrite (positions_are_the_filtered_reply
             scripted decimal_float (Some "btcusdt") testnet testnet
             [position_entry "BTCUSDT" "0.010" "64000.0";
              position_entry "ETHUSDT" "0.000" "0.0";
              position_entry "BNBUSDT" "-2.50" "590.1"] eq_refl).
  - cbn [result]. vm_compute. reflexivity.
  - intros p [->|[->|[->|[]%elem_of_nil]%elem_of_cons]%elem_of_cons]%elem_of_cons;
      eexists; vm_compute; reflexivity.
Defined.


(** X11, an account one asset of which has no wallet balance. *)
Lemma malformed_asset_fails_snapshot_witness :
  result (get_account_balance scripted decimal_float torn) = Ok None.
Proof.
  pose proof (malformed_asset_fails_snapshot scripted decimal_float torn) as H.
  cbv zeta in H. destruct H as (_ & _ & H).
  apply (H torn_account
           [asset_entry "USDT" "15000.00000000" "14250.50000000";
            VDict (<["asset" := VStr "BNB"]> ∅)]
           (VDict (<["asset" := VStr "BNB"]> ∅))); [reflexivity|reflexivity| |].
  - apply elem_of_cons. right. apply elem_of_cons. by left.
  - left. exists (KeyError "walletBalance"). vm_compute. reflexivity.
Defined.

(** * Properties of the session *)

(** Unfolding of the monadic operations of a session. *)
Ltac run_session :=
  unfold attempt, evaluate, raise, unfinished, logger, request, print, input, bot;
  unfold mbind, P_bind, mret, P_ret; cbn.

Section Console.
Context {World : Type}.
Context (py_float : value → outcome float) (py_int : value → outcome Z).

Lemma get_user_input_eof (fuel : nat) (prompt : string) (t : input_type)
    (w : World) :
  get_user_input py_float py_int (S fuel) prompt t (Console [] w) =
    Exec (Raised EOFError) [Input prompt] (Console [] w).
Proof. reflexivity. Qed.

Lemma get_user_input_line (fuel : nat) (prompt : string) (t : input_type)
    (line : string) (rest : list string) (w : World) :
  get_user_input py_float py_int (S fuel) prompt t (Console (line :: rest) w) =
    match convert py_float py_int t line with
    | Ok v => Exec (Returned v) [Input prompt] (Console rest w)
    | Raise (ValueError m) =>
        match get_user_input py_float py_int fuel prompt t (Console rest w) with
        | Exec o acts s' =>
            Exec o (Input prompt :: Print [Lit "Invalid input."] :: acts) s'
        end
    | Raise e => Exec (Raised e) [Input prompt] (Console rest w)
    end.
Proof.
  cbn [get_user_input]. run_session.
  destruct (convert py_float py_int t line) as [v|[]]; cbn; try done.
  destruct (get_user_input py_float py_int fuel prompt t _); done.
Qed.

Lemma get_user_input_skips (fuel : nat) (prompt : string) (t : input_type)
    (bad tail : list string) (w : World) :
  Forall (λ line, ∃ m, convert py_float py_int t line = Raise (ValueError m)) bad →
  get_user_input py_float py_int (length bad + fuel) prompt t (Console (bad ++ tail) w) =
    match get_user_input py_float py_int fuel prompt t (Console tail w) with
    | Exec o acts s' => Exec o (rejections prompt bad ++ acts) s'
    end.
Proof.
  induction 1 as [|line bad [m Hline] _ IH]; cbn [length app Nat.add].
  - by destruct (get_user_input py_float py_int fuel prompt t _).
  - rewrite get_user_input_line, Hline, IH.
    by destruct (get_user_input py_float py_int fuel prompt t _).
Qed.

End Console.

(** ** Runs that finish, reading forward *)

Section Settled.
Context {World : Type}.

Lemma settled_ret (k : nat) {A : Type} (a : A) : settled k (mret a : P World A).
Proof. intros s _. by split. Qed.

Lemma settled_bind (k : nat) {A B : Type} (p : P World A) (f : A → P World B) :
  settled k p → (∀ a, settled k (f a)) → settled k (p ≫= f).
Proof.
  intros Hp Hf s Hs. unfold mbind, P_bind.
  destruct (Hp s Hs) as [Hu Hl].
  destruct (p s) as [[a|e|] t s']; cbn in *; [|done..].
  destruct (Hf a s') as [Hu' Hl'].
  { apply suffix_length in Hl. lia. }
  destruct (f a s') as [o t' s'']; cbn in *.
  split; [done|by etrans].
Qed.

Lemma settled_attempt (k : nat) {A : Type} (p : P World A) (h : exn → P World A) :
  settled k p → (∀ e, settled k (h e)) → settled k (attempt p h).
Proof.
  intros Hp Hh s Hs. unfold attempt.
  destruct (Hp s Hs) as [Hu Hl].
  destruct (p s) as [[a|e|] t s']; cbn in *; [done| |done].
  destruct (Hh e s') as [Hu' Hl'].
  { apply suffix_length in Hl. lia. }
  destruct (h e s') as [o t' s'']; cbn in *.
  split; [done|by etrans].
Qed.

Lemma settled_evaluate (k : nat) {A : Type} (o : outcome A) :
  settled k (evaluate o : P World A).
Proof. intros s _. by destruct o. Qed.

Lemma settled_raise (k : nat) {A : Type} (e : exn) :
  settled k (raise e : P World A).
Proof. intros s _. by split. Qed.

Lemma settled_logger (k : nat) (lv : level) (msg : list piece) :
  settled k (logger lv msg : P World unit).
Proof. intros s _. by split. Qed.

Lemma settled_print (k : nat) (text : list piece) :
  settled k (print text : P World unit).
Proof. intros s _. by split. Qed.

Lemma settled_request (k : nat) {A : Type} (a : action)
    (f : World → outcome A * World) :
  settled k (request a f).
Proof. intros s _. unfold request. by destruct (f _) as [[] ?]. Qed.

Lemma settled_bot (k : nat) {A : Type} (m : M World A) : settled k (bot m).
Proof. intros s _. unfold bot. by destruct (m _) as [[] ? ?]. Qed.

Lemma settled_input (k : nat) (prompt : string) :
  settled k (input prompt : P World string).
Proof.
  intros [[|line rest] w] _; cbn; [done|].
  split; [done|]. by apply suffix_cons_r.
Qed.

Lemma settled_for_each (k : nat) {A : Type} (l : list A) (body : A → P World unit) :
  (∀ x, settled k (body x)) → settled k (for_each l body).
Proof.
  intros Hbody. induction l as [|x l IH]; cbn [for_each].
  - apply settled_ret.
  - by apply settled_bind.
Qed.

End Settled.

Section Reading.
Context {World : Type}.
Context (py_float : value → outcome float) (py_int : value → outcome Z).

(** With more fuel than lines to read, [get_user_input] finishes; when it
    returns it has read at least one line. *)
Lemma get_user_input_finishes (fuel : nat) (prompt : string) (t : input_type)
    (s : console World) :
  (length (stdin s) < fuel)%nat →
  match outcome_of (get_user_input py_float py_int fuel prompt t s) with
  | Returned _ =>
      (length (stdin (after (get_user_input py_float py_int fuel prompt t s)))
       < length (stdin s))%nat
  | Raised _ => True
  | Unfinished => False
  end ∧
  stdin (after (get_user_input py_float py_int fuel prompt t s))
    `suffix_of` stdin s.
Proof.
  destruct s as [lines w]. cbn [stdin].
  revert fuel. induction lines as [|line rest IH]; intros [|fuel] Hfuel;
    try (cbn in Hfuel; lia).
  - by rewrite get_user_input_eof.
  - rewrite get_user_input_line.
    destruct (convert py_float py_int t line) as [v|[]]; cbn;
      try (split; [try done; lia|by apply suffix_cons_r]).
    destruct (IH fuel) as [Hout Hsuffix]; [cbn in Hfuel; lia|].
    destruct (get_user_input py_float py_int fuel prompt t _)
      as [[v|e|] acts s']; cbn in *;
      (split; [try done; lia|by apply suffix_cons_r]).
Qed.

Lemma settled_get_user_input (k fuel : nat) (prompt : string) (t : input_type) :
  (k ≤ fuel)%nat →
  settled (World := World) k (get_user_input py_float py_int fuel prompt t).
Proof.
  intros Hk s Hs.
  destruct (get_user_input_finishes fuel prompt t s) as [Hout Hsuffix]; [lia|].
  split; [|done]. by destruct (outcome_of _).
Qed.

(** X14. [get_user_input] asks again after every line that [float] or [int]
    rejects with a [ValueError], printing "Invalid input." each time, and
    returns the conversion of the first line that converts; the lines after
    it are left unread. *)
Theorem get_user_input_retries
    (fuel : nat) (prompt : string) (t : input_type)
    (bad : list string) (good : string) (rest : list string)
    (v : typed t) (w : World) :
  (length bad < fuel)%nat →
  Forall (λ line, ∃ m, convert py_float py_int t line = Raise (ValueError m)) bad →
  convert py_float py_int t good = Ok v →
  get_user_input py_float py_int fuel prompt t (Console (bad ++ good :: rest) w) =
    Exec (Returned v) (rejections prompt bad ++ [Input prompt]) (Console rest w).
Proof.
  intros Hfuel Hbad Hgood.
  assert (∃ n, fuel = (length bad + S n)%nat) as [n ->]
    by (exists (fuel - S (length bad))%nat; lia).
  rewrite get_user_input_skips by done.
  by rewrite get_user_input_line, Hgood.
Qed.

(** X15. The end of the input is an exception, not a value: when every line
    left is rejected, [get_user_input] reads them all and raises [EOFError].
    An exception of the conversion that is no [ValueError] is not handled
    either: it is raised at once, without "Invalid input.". *)
Theorem get_user_input_end_of_input
    (fuel : nat) (prompt : string) (t : input_type)
    (bad : list string) (w : World) :
  (length bad < fuel)%nat →
  Forall (λ line, ∃ m, convert py_float py_int t line = Raise (ValueError m)) bad →
  get_user_input py_float py_int fuel prompt t (Console bad w) =
    Exec (Raised EOFError) (rejections prompt bad ++ [Input prompt]) (Console [] w) ∧
  (∀ line rest e,
     convert py_float py_int t line = Raise e →
     (∀ m, e ≠ ValueError m) →
     get_user_input py_float py_int fuel prompt t
                    (Console (bad ++ line :: rest) w) =
       Exec (Raised e) (rejections prompt bad ++ [Input prompt]) (Console rest w)).
Proof.
  intros Hfuel Hbad.
  assert (∃ n, fuel = (length bad + S n)%nat) as [n ->]
    by (exists (fuel - S (length bad))%nat; lia).
  split.
  - pose proof (get_user_input_skips py_float py_int (S n) prompt t bad [] w Hbad)
      as Hskip.
    rewrite app_nil_r in Hskip. by rewrite Hskip, get_user_input_eof.
  - intros line rest e Hline Hother.
    rewrite get_user_input_skips by done.
    rewrite get_user_input_line, Hline.
    destruct e; try done. by destruct (Hother message).
Qed.

End Reading.

(** ** The session finishes *)

Section Finishing.
Context {World : Type} (client : Client World) (desk : Desk World).
Context (py_float : value → outcome float) (py_int : value → outcome Z).

Ltac settle_step :=
  first
    [ apply settled_ret | apply settled_print | apply settled_logger
    | apply settled_evaluate | apply settled_raise | apply settled_request
    | apply settled_input | apply settled_bot
    | match goal with
      | |- settled _ (get_user_input _ _ _ ?prompt ?t) =>
          apply (settled_get_user_input _ _ _ _ prompt t); lia
      end
    | apply settled_for_each; intros ?
    | apply settled_attempt; [|intros ?]
    | apply settled_bind; [|intros ?]
    | match goal with |- settled _ (if ?b then _ else _) => destruct b end
    | match goal with |- settled _ (match ?x with _ => _ end) => destruct x end ].

Ltac settle_session := cbv zeta; repeat settle_step.

Lemma settled_get_open_orders (k : nat) (symbol : option string) :
  settled (World := World) k (get_open_orders desk symbol).
Proof. unfold get_open_orders. settle_session. Qed.

Lemma settled_cancel_order (k : nat) (symbol : string) (order_id : Z) :
  settled (World := World) k (cancel_order desk symbol order_id).
Proof. unfold cancel_order. settle_session. Qed.

Lemma settled_init (k : nat) (api_key api_secret : string) (testnet : bool) :
  settled k (__init__ client desk api_key api_secret testnet).
Proof. unfold __init__. settle_session. Qed.

Lemma settled_print_menu (k : nat) : settled (World := World) k print_menu.
Proof. unfold print_menu. settle_session. Qed.

Lemma settled_market_order_dialog (k : nat) :
  settled k (market_order_dialog client py_float py_int k).
Proof. unfold market_order_dialog. settle_session. Qed.

Lemma settled_limit_order_dialog (k : nat) :
  settled k (limit_order_dialog client py_float py_int k).
Proof. unfold limit_order_dialog. settle_session. Qed.

Lemma settled_stop_limit_order_dialog (k : nat) :
  settled k (stop_limit_order_dialog client py_float py_int k).
Proof. unfold stop_limit_order_dialog. settle_session. Qed.

Lemma settled_account_balance_dialog (k : nat) :
  settled k (account_balance_dialog client py_float).
Proof. unfold account_balance_dialog. settle_session. Qed.

Lemma settled_open_orders_dialog (k : nat) :
  settled k (open_orders_dialog desk py_float py_int k).
Proof. unfold open_orders_dialog. settle_session. Qed.

Lemma settled_positions_dialog (k : nat) :
  settled k (positions_dialog client py_float).
Proof. unfold positions_dialog. settle_session. Qed.

Lemma settled_cancel_order_dialog (k : nat) :
  settled k (cancel_order_dialog desk py_float py_int k).
Proof. unfold cancel_order_dialog. settle_session. Qed.

Lemma reads_bind_l (k : nat) {A B : Type} (p : P World A) (f : A → P World B) :
  reads k p → (∀ a, settled k (f a)) → reads k (p ≫= f).
Proof.
  intros Hp Hf s Hs. unfold mbind, P_bind.
  destruct (Hp s Hs) as [Hu Hl].
  destruct (p s) as [[a|e|] t s']; cbn in *; [|done..].
  destruct (Hf a s') as [Hu' Hl']; [lia|].
  destruct (f a s') as [[b|e|] t' s'']; cbn in *;
    (split; [try done|by etrans]).
  apply suffix_length in Hl'. lia.
Qed.

Lemma reads_bind_r (k : nat) {A B : Type} (p : P World A) (f : A → P World B) :
  settled k p → (∀ a, reads k (f a)) → reads k (p ≫= f).
Proof.
  intros Hp Hf s Hs. unfold mbind, P_bind.
  destruct (Hp s Hs) as [Hu Hl].
  destruct (p s) as [[a|e|] t s']; cbn in *; [|done..].
  pose proof (suffix_length _ _ Hl) as Hlen.
  destruct (Hf a s') as [Hu' Hl']; [lia|].
  destruct (f a s') as [[b|e|] t' s'']; cbn in *;
    (split; [try done|by etrans]).
  lia.
Qed.

Lemma settled_menu_choice (k : nat) (choice : string) :
  settled k (menu_choice client desk py_float py_int k choice).
Proof.
  unfold menu_choice.
  repeat match goal with
         | |- settled _ (if ?b then _ else _) => destruct b
         end;
    (apply settled_bind; [|intros ?; apply settled_ret]);
    first [ apply settled_market_order_dialog
          | apply settled_limit_order_dialog
          | apply settled_stop_limit_order_dialog
          | apply settled_account_balance_dialog
          | apply settled_open_orders_dialog
          | apply settled_positions_dialog
          | apply settled_cancel_order_dialog
          | settle_session ].
Qed.

Lemma menu_round_reads (k : nat) :
  reads k (menu_round client desk py_float py_int k).
Proof.
  unfold menu_round.
  apply reads_bind_r; [apply settled_print_menu|intros _].
  apply reads_bind_l;
    [intros s Hs; exact (get_user_input_finishes _ _ _ _ type_str s Hs)|].
  intros choice. apply settled_bind; [apply settled_menu_choice|].
  intros leave. settle_session.
Qed.

Lemma menu_loop_finishes (k fuel : nat) (s : console World) :
  (length (stdin s) < fuel)%nat → (length (stdin s) < k)%nat →
  outcome_of (menu_loop client desk py_float py_int k fuel s) ≠ Unfinished ∧
  stdin (after (menu_loop client desk py_float py_int k fuel s))
    `suffix_of` stdin s.
Proof.
  revert s. induction fuel as [|fuel IH]; intros s Hfuel Hk; [lia|].
  cbn [menu_loop]. unfold mbind, P_bind.
  destruct (menu_round_reads k s Hk) as [Hout Hsuffix].
  destruct (menu_round client desk py_float py_int k s)
    as [[[|]|e|] t s']; cbn in *; [|done..].
  destruct (IH s') as [Hout' Hsuffix']; [lia..|].
  destruct (menu_loop client desk py_float py_int k fuel s')
    as [o t' s'']; cbn in *.
  split; [done|by etrans].
Qed.

Lemma settled_menu_loop (fuel : nat) :
  settled fuel (menu_loop client desk py_float py_int fuel fuel).
Proof. intros s Hs. by apply menu_loop_finishes. Qed.

(** *** The fuel does not matter *)

Lemma agree_refl (k k' : nat) {A : Type} (p : P World A) : agree k k' p p.
Proof. by intros s _ _. Qed.

Lemma agree_bind (k k' : nat) {A B : Type} (p p' : P World A)
    (f f' : A → P World B) :
  agree k k' p p' → settled k p → settled k' p' →
  (∀ a, agree k k' (f a) (f' a)) →
  agree k k' (p ≫= f) (p' ≫= f').
Proof.
  intros Hp Hk Hk' Hf s Hs Hs'. unfold mbind, P_bind.
  destruct (Hk s Hs) as [_ Hsuffix]. destruct (Hk' s Hs') as [_ Hsuffix'].
  rewrite <- (Hp s Hs Hs') in *.
  destruct (p s) as [[a|e|] t s']; cbn in *; [|done..].
  apply suffix_length in Hsuffix, Hsuffix'.
  rewrite (Hf a s') by lia. done.
Qed.

Lemma agree_attempt (k k' : nat) {A : Type} (p p' : P World A)
    (h h' : exn → P World A) :
  agree k k' p p' → settled k p → settled k' p' →
  (∀ e, agree k k' (h e) (h' e)) →
  agree k k' (attempt p h) (attempt p' h').
Proof.
  intros Hp Hk Hk' Hh s Hs Hs'. unfold attempt.
  destruct (Hk s Hs) as [_ Hsuffix]. destruct (Hk' s Hs') as [_ Hsuffix'].
  rewrite <- (Hp s Hs Hs') in *.
  destruct (p s) as [[a|e|] t s']; cbn in *; [done| |done].
  apply suffix_length in Hsuffix, Hsuffix'.
  rewrite (Hh e s') by lia. done.
Qed.

Lemma agree_get_user_input (k k' fuel fuel' : nat) (prompt : string)
    (t : input_type) :
  (k ≤ fuel)%nat → (k' ≤ fuel')%nat →
  agree (World := World) k k'
        (get_user_input py_float py_int fuel prompt t)
        (get_user_input py_float py_int fuel' prompt t).
Proof.
  intros Hk Hk' [lines w] Hs Hs'. cbn [stdin] in *.
  assert (Hfuel : (length lines < fuel)%nat) by lia.
  assert (Hfuel' : (length lines < fuel')%nat) by lia.
  clear Hk Hk' Hs Hs'. revert fuel fuel' Hfuel Hfuel'.
  induction lines as [|line rest IH]; intros [|fuel] [|fuel'] Hfuel Hfuel';
    cbn in Hfuel, Hfuel'; try lia.
  - by rewrite !get_user_input_eof.
  - rewrite !get_user_input_line.
    destruct (convert py_float py_int t line) as [v|[]]; try done.
    rewrite (IH fuel fuel') by lia. done.
Qed.

Ltac agree_step :=
  first
    [ apply agree_refl
    | match goal with
      | |- agree _ _ (get_user_input _ _ _ ?prompt ?t) _ =>
          apply (agree_get_user_input _ _ _ _ prompt t); lia
      end
    | apply agree_bind; [|settle_session|settle_session|intros ?]
    | apply agree_attempt; [|settle_session|settle_session|intros ?]
    | match goal with
      | |- agree _ _ (if ?b then _ else _) _ => destruct b
      | |- agree _ _ (match ?x with _ => _ end) _ => destruct x
      end ].

Ltac agree_session := cbv zeta; repeat agree_step.

Lemma agree_menu_choice (k k' : nat) (choice : string) :
  agree k k' (menu_choice client desk py_float py_int k choice)
             (menu_choice client desk py_float py_int k' choice).
Proof.
  unfold menu_choice.
  repeat match goal with
         | |- agree _ _ (if ?b then _ else _) _ => destruct b
         end;
    try apply agree_refl;
    (apply agree_bind; [|..|intros ?; apply agree_refl]);
    [ unfold market_order_dialog; agree_session
    | apply settled_market_order_dialog
    | apply settled_market_order_dialog
    | unfold limit_order_dialog; agree_session
    | apply settled_limit_order_dialog
    | apply settled_limit_order_dialog
    | unfold stop_limit_order_dialog; agree_session
    | apply settled_stop_limit_order_dialog
    | apply settled_stop_limit_order_dialog
    | unfold open_orders_dialog; agree_session
    | apply settled_open_orders_dialog
    | apply settled_open_orders_dialog
    | unfold cancel_order_dialog; agree_session
    | apply settled_cancel_order_dialog
    | apply settled_cancel_order_dialog ].
Qed.

Lemma agree_menu_round (k k' : nat) :
  agree k k' (menu_round client desk py_float py_int k)
             (menu_round client desk py_float py_int k').
Proof.
  unfold menu_round.
  apply agree_bind; [apply agree_refl|apply settled_print_menu..|intros _].
  apply agree_bind; [agree_session|settle_session..|intros choice].
  apply agree_bind;
    [apply agree_menu_choice|apply settled_menu_choice..|intros leave].
  apply agree_refl.
Qed.

Lemma menu_loop_fuel (k k' fuel fuel' : nat) (s : console World) :
  (length (stdin s) < k)%nat → (length (stdin s) < k')%nat →
  (length (stdin s) < fuel)%nat → (length (stdin s) < fuel')%nat →
  menu_loop client desk py_float py_int k fuel s =
    menu_loop client desk py_float py_int k' fuel' s.
Proof.
  revert fuel' s. induction fuel as [|fuel IH];
    intros [|fuel'] s Hk Hk' Hfuel Hfuel'; try lia.
  cbn [menu_loop]. unfold mbind, P_bind.
  rewrite <- (agree_menu_round k k' s Hk Hk').
  destruct (menu_round_reads k s Hk) as [Hout Hsuffix].
  destruct (menu_round client desk py_float py_int k s)
    as [[[|]|e|] t s']; cbn in *; try done.
  rewrite (IH fuel' s') by lia. done.
Qed.

(** X16. A session always ends, and ends normally: on every input, whatever
    the exchange answers or raises, [main] returns; nothing it calls can
    make it raise, and with more fuel than lines of input its two loops
    finish. It reads the input forward: what is left is a suffix of what was
    there. The run is that of the input alone: any other amount of fuel
    above the number of lines gives the same run. *)
Theorem main_returns
    (fuel : nat) (API_KEY SECRET_KEY : option string) (s : console World) :
  (length (stdin s) < fuel)%nat →
  outcome_of (main client desk py_float py_int fuel API_KEY SECRET_KEY s) =
    Returned () ∧
  stdin (after (main client desk py_float py_int fuel API_KEY SECRET_KEY s))
    `suffix_of` stdin s ∧
  (∀ fuel', (length (stdin s) < fuel')%nat →
     main client desk py_float py_int fuel' API_KEY SECRET_KEY s =
       main client desk py_float py_int fuel API_KEY SECRET_KEY s).
Proof.
  intros Hs.
  assert (Hbody : ∀ n api_key secret_key,
            settled n
              (__init__ client desk api_key secret_key true;;
               print [Lit "BinanceBot has been initialized."];;
               menu_loop client desk py_float py_int n n)).
  { intros n api_key secret_key.
    apply settled_bind; [apply settled_init|intros _].
    apply settled_bind; [apply settled_print|intros _].
    apply settled_menu_loop. }
  rewrite (assoc and). split.
  - unfold main.
    assert (Hmissing : ∀ text,
      outcome_of
        ((print [Lit (String "010" " Welcome to Binance Futures Trading bot")];;
          print [Lit rule];; print text) s) = Returned () ∧
      stdin (after
        ((print [Lit (String "010" " Welcome to Binance Futures Trading bot")];;
          print [Lit rule];; print text) s)) `suffix_of` stdin s).
    { intros text. by split. }
    destruct API_KEY as [api_key|]; [|apply Hmissing].
    destruct SECRET_KEY as [secret_key|]; [|apply Hmissing].
    destruct (_ || _); [apply Hmissing|].
    specialize (Hbody fuel api_key secret_key).
    set (body := __init__ client desk api_key secret_key true;;
                 print [Lit "BinanceBot has been initialized."];;
                 menu_loop client desk py_float py_int fuel fuel) in *.
    clearbody body. destruct (Hbody s Hs) as [Hout Hsuffix].
    unfold mbind, P_bind, print, logger, attempt. cbn.
    destruct (body s) as [[[]|e|] t s']; cbn in *; done.
  - intros fuel' Hs'. revert s Hs' Hs.
    change (agree fuel' fuel
              (main client desk py_float py_int fuel' API_KEY SECRET_KEY)
              (main client desk py_float py_int fuel API_KEY SECRET_KEY)).
    unfold main.
    apply agree_bind; [apply agree_refl|apply settled_print..|intros _].
    apply agree_bind; [apply agree_refl|apply settled_print..|intros _].
    destruct API_KEY as [api_key|]; [|apply agree_refl].
    destruct SECRET_KEY as [secret_key|]; [|apply agree_refl].
    destruct (_ || _); [apply agree_refl|].
    apply agree_attempt; [|apply Hbody..|intros e; apply agree_refl].
    apply agree_bind; [apply agree_refl|apply settled_init..|intros _].
    apply agree_bind; [apply agree_refl|apply settled_print..|intros _].
    intros s H1 H2. by apply menu_loop_fuel.
Qed.

End Finishing.

(** ** What a session never does *)

Section Always.
Context {World : Type}.

Lemma always_ret (Q : action → Prop) {A : Type} (a : A) :
  always Q (mret a : P World A).
Proof. intros s. constructor. Qed.

Lemma always_bind (Q : action → Prop) {A B : Type}
    (p : P World A) (f : A → P World B) :
  always Q p → (∀ a, always Q (f a)) → always Q (p ≫= f).
Proof.
  intros Hp Hf s. unfold mbind, P_bind. specialize (Hp s).
  destruct (p s) as [[a|e|] t s']; cbn in *; [|done..].
  specialize (Hf a s'). destruct (f a s') as [o t' s'']; cbn in *.
  by apply Forall_app.
Qed.

Lemma always_attempt (Q : action → Prop) {A : Type}
    (p : P World A) (h : exn → P World A) :
  always Q p → (∀ e, always Q (h e)) → always Q (attempt p h).
Proof.
  intros Hp Hh s. unfold attempt. specialize (Hp s).
  destruct (p s) as [[a|e|] t s']; cbn in *; [done| |done].
  specialize (Hh e s'). destruct (h e s') as [o t' s'']; cbn in *.
  by apply Forall_app.
Qed.

Lemma always_evaluate (Q : action → Prop) {A : Type} (o : outcome A) :
  always Q (evaluate o : P World A).
Proof. intros s. constructor. Qed.

(** The value bound is the value of the expression. *)
Lemma always_evaluate_bind (Q : action → Prop) {A B : Type}
    (o : outcome A) (f : A → P World B) :
  (∀ a, o = Ok a → always Q (f a)) → always Q (evaluate o ≫= f).
Proof.
  intros Hf s. unfold mbind, P_bind, evaluate.
  destruct o as [a|e]; cbn; [|constructor].
  specialize (Hf a eq_refl s). by destruct (f a s).
Qed.

Lemma always_raise (Q : action → Prop) {A : Type} (e : exn) :
  always Q (raise e : P World A).
Proof. intros s. constructor. Qed.

Lemma always_unfinished (Q : action → Prop) {A : Type} :
  always Q (unfinished : P World A).
Proof. intros s. constructor. Qed.

Lemma always_logger (Q : action → Prop) (lv : level) (msg : list piece) :
  Q (Bot (Log lv msg)) → always Q (logger lv msg : P World unit).
Proof. intros HQ s. by repeat constructor. Qed.

Lemma always_print (Q : action → Prop) (text : list piece) :
  Q (Print text) → always Q (print text : P World unit).
Proof. intros HQ s. by repeat constructor. Qed.

Lemma always_input (Q : action → Prop) (prompt : string) :
  Q (Input prompt) → always Q (input prompt : P World string).
Proof. intros HQ [[|line rest] w]; by repeat constructor. Qed.

Lemma always_request (Q : action → Prop) {A : Type} (a : action)
    (f : World → outcome A * World) :
  Q a → always Q (request a f).
Proof. intros HQ s. unfold request. destruct (f _). by repeat constructor. Qed.

Lemma always_bot (Q : action → Prop) {A : Type} (m : M World A) :
  (∀ w, Forall (λ e, Q (Bot e)) (trace (m w))) → always Q (bot m).
Proof.
  intros Hm s. unfold bot. specialize (Hm (exchange s)).
  destruct (m _) as [o t w]; cbn in *. by apply Forall_fmap.
Qed.

Lemma always_for_each (Q : action → Prop) {A : Type} (l : list A)
    (body : A → P World unit) :
  (∀ x, always Q (body x)) → always Q (for_each l body).
Proof.
  intros Hbody. induction l as [|x l IH]; cbn [for_each].
  - apply always_ret.
  - by apply always_bind.
Qed.

Lemma always_get_user_input (Q : action → Prop)
    (py_float : value → outcome float) (py_int : value → outcome Z)
    (fuel : nat) (prompt : string) (t : input_type) :
  Q (Input prompt) → Q (Print [Lit "Invalid input."]) →
  always Q (get_user_input py_float py_int fuel prompt t : P World (typed t)).
Proof.
  intros Hinput Hprint. induction fuel as [|fuel IH]; cbn [get_user_input].
  - apply always_unfinished.
  - apply always_attempt.
    + apply always_bind; [by apply always_input|intros ?; apply always_evaluate].
    + intros []; try apply always_raise.
      apply always_bind; [by apply always_print|done].
Qed.

End Always.

(** One step of a proof that every action of a session satisfies a
    predicate; what is known of a condition is kept. *)
Ltac always_step :=
  first
    [ apply always_ret | apply always_raise | apply always_unfinished
    | apply always_evaluate
    | apply always_evaluate_bind; intros ? ?
    | apply always_print | apply always_logger | apply always_input
    | apply always_request
    | match goal with
      | |- always _ (get_user_input _ _ _ ?prompt ?t) =>
          apply (always_get_user_input _ _ _ _ prompt t)
      end
    | apply always_for_each; intros ?
    | apply always_attempt; [|intros ?]
    | apply always_bind; [|intros ?]
    | match goal with
      | |- always _ (if ?b then _ else _) => destruct b eqn:?
      | |- always _ (match ?x with _ => _ end) => destruct x eqn:?
      end ].

Section Silence.
Context {World : Type} (client : Client World) (desk : Desk World).
Context (py_float : value → outcome float) (py_int : value → outcome Z).

Lemma py_truthy_len (v : value) (n : Z) :
  py_truthy v = true → py_len v = Ok n → n ≠ 0.
Proof.
  destruct v as [| | | |s|l|d]; cbn; try done.
  - intros Hs [= <-]. destruct s; [done|cbn; lia].
  - intros Hl [= <-]. destruct l; [done|cbn; lia].
  - intros Hd [= <-]. apply negb_true_iff, bool_decide_eq_false in Hd. lia.
Qed.

Lemma bot_is_not_an_empty_listing {A : Type} (m : M World A) :
  always not_an_empty_listing (bot m).
Proof. apply always_bot. intros w. apply Forall_forall. by intros e _. Qed.

Ltac quiet :=
  cbv zeta;
  repeat first
    [ apply bot_is_not_an_empty_listing
    | always_step
    | by split ].

Lemma quiet_market_order_dialog (k : nat) :
  always not_an_empty_listing (market_order_dialog client py_float py_int k).
Proof. unfold market_order_dialog. quiet. Qed.

Lemma quiet_limit_order_dialog (k : nat) :
  always not_an_empty_listing (limit_order_dialog client py_float py_int k).
Proof. unfold limit_order_dialog. quiet. Qed.

Lemma quiet_stop_limit_order_dialog (k : nat) :
  always not_an_empty_listing (stop_limit_order_dialog client py_float py_int k).
Proof. unfold stop_limit_order_dialog. quiet. Qed.

Lemma quiet_account_balance_dialog :
  always not_an_empty_listing (account_balance_dialog client py_float).
Proof. unfold account_balance_dialog. quiet. Qed.

Lemma quiet_open_orders_dialog (k : nat) :
  always not_an_empty_listing (open_orders_dialog desk py_float py_int k).
Proof.
  unfold open_orders_dialog. quiet.
  match goal with
  | Htruthy : py_truthy ?v = true, Hlen : py_len ?v = Ok ?n,
    Hzero : (?n =? 0) = true |- _ =>
      apply Z.eqb_eq in Hzero; destruct (py_truthy_len v n Htruthy Hlen Hzero)
  end.
Qed.

Lemma quiet_positions_dialog :
  always not_an_empty_listing (positions_dialog client py_float).
Proof.
  unfold positions_dialog. quiet.
  match goal with
  | Htruthy : py_truthy (VList ?l) = true,
    Hzero : (Z.of_nat (length ?l) =? 0) = true |- _ =>
      destruct l; [done|cbn in Hzero; apply Z.eqb_eq in Hzero; lia]
  end.
Qed.

Lemma quiet_cancel_order_dialog (k : nat) :
  always not_an_empty_listing (cancel_order_dialog desk py_float py_int k).
Proof. unfold cancel_order_dialog. quiet. Qed.

Lemma quiet_menu_round (k : nat) :
  always not_an_empty_listing (menu_round client desk py_float py_int k).
Proof.
  unfold menu_round, menu_choice.
  apply always_bind; [unfold print_menu; quiet|intros _].
  apply always_bind; [quiet|intros choice].
  apply always_bind; [|intros leave; quiet].
  repeat match goal with
         | |- always _ (if ?b then _ else _) => destruct b
         end;
    try (apply always_bind; [|intros ?; apply always_ret]);
    first [ apply quiet_market_order_dialog
          | apply quiet_limit_order_dialog
          | apply quiet_stop_limit_order_dialog
          | apply quiet_account_balance_dialog
          | apply quiet_open_orders_dialog
          | apply quiet_positions_dialog
          | apply quiet_cancel_order_dialog
          | quiet ].
Qed.

Lemma quiet_menu_loop (k fuel : nat) :
  always not_an_empty_listing (menu_loop client desk py_float py_int k fuel).
Proof.
  induction fuel as [|fuel IH]; cbn [menu_loop]; [apply always_unfinished|].
  apply always_bind; [apply quiet_menu_round|].
  intros [|]; [done|apply always_ret].
Qed.

(** X17. Two messages of [main] are never printed, in any session: "No open
    orders" and "No active positions". Each sits under a test of the listing
    for truth and then for length zero, and an empty listing is not true: a
    session shows nothing but the header when there is no open order or no
    active position. *)
Theorem empty_listings_are_never_announced
    (fuel : nat) (API_KEY SECRET_KEY : option string) (s : console World) :
  Forall (λ a, a ≠ Print [Lit "No open orders"] ∧
               a ≠ Print [Lit "No active positions"])
         (actions (main client desk py_float py_int fuel API_KEY SECRET_KEY s)).
Proof.
  revert s. change (always not_an_empty_listing
                      (main client desk py_float py_int fuel API_KEY SECRET_KEY)).
  unfold main.
  apply always_bind; [quiet|intros _].
  apply always_bind; [quiet|intros _].
  destruct API_KEY as [api_key|]; [|quiet].
  destruct SECRET_KEY as [secret_key|]; [|quiet].
  destruct (_ || _); [quiet|].
  apply always_attempt; [|intros e; quiet].
  apply always_bind; [unfold __init__, _test_connection; quiet|intros _].
  apply always_bind; [quiet|intros _].
  apply quiet_menu_loop.
Qed.

End Silence.

(** ** The requests of a session *)

Section Requests.
Context {World : Type} (client : Client World) (desk : Desk World).
Context (py_float : value → outcome float) (py_int : value → outcome Z).

Lemma Forall_submitted (R : gmap string value → Prop) (t : list event) :
  Forall R (submitted t) →
  Forall (λ e, match e with
               | Call (FuturesCreateOrder p) => R p
               | _ => True
               end) t.
Proof.
  induction t as [|[lv msg|[| p | |scope]] t IH]; cbn; intros Hall;
    try (constructor; [done|by apply IH]); [constructor|].
  apply Forall_cons in Hall as [Hp Hall]. constructor; [done|by apply IH].
Qed.

Lemma bot_requests_ok {A : Type} (m : M World A) :
  (∀ w, Forall well_formed_order (submitted (trace (m w)))) →
  always request_ok (bot m).
Proof.
  intros Hm. apply always_bot. intros w.
  apply (Forall_submitted well_formed_order), Hm.
Qed.

Lemma side_is_buy_or_sell (side : string) :
  side ∈ ["BUY"; "SELL"] → side = "BUY" ∨ side = "SELL".
Proof.
  intros [->|[->|[]%elem_of_nil]%elem_of_cons]%elem_of_cons; by eauto.
Qed.

Lemma market_order_ok (symbol side : string) (quantity : float) :
  py_truthy (VFloat quantity) = true →
  always request_ok (bot (place_market_order client symbol side quantity)).
Proof.
  intros Hq%negb_true_iff. apply bot_requests_ok. intros w.
  destruct (order_submissions client symbol side quantity 0 0 0 "" w)
    as ([->|(-> & Hside & _)] & _); [constructor|].
  apply Forall_singleton. split; [|split].
  - unfold market_params.
    destruct (side_is_buy_or_sell _ Hside) as [-> | ->]; simplify_map_eq; by eauto.
  - exists quantity. unfold market_params. by simplify_map_eq.
  - left. unfold market_params. by simplify_map_eq.
Qed.

Lemma limit_order_ok (symbol side : string) (quantity price : float) :
  py_truthy (VFloat quantity) && py_truthy (VFloat price) = true →
  always request_ok (bot (place_limit_order client symbol side quantity price "GTC")).
Proof.
  intros [Hq%negb_true_iff Hp%negb_true_iff]%andb_true_iff.
  apply bot_requests_ok. intros w.
  destruct (order_submissions client symbol side quantity price 0 0 "GTC" w)
    as (_ & [->|(-> & Hside & _)] & _); [constructor|].
  apply Forall_singleton. split; [|split].
  - unfold limit_params.
    destruct (side_is_buy_or_sell _ Hside) as [-> | ->]; simplify_map_eq; by eauto.
  - exists quantity. unfold limit_params. by simplify_map_eq.
  - right. unfold limit_params. split; [by simplify_map_eq|].
    exists price. by simplify_map_eq.
Qed.

Lemma stop_limit_order_ok (symbol side : string)
    (quantity stop_price limit_price : float) :
  py_truthy (VFloat quantity) && py_truthy (VFloat stop_price)
    && py_truthy (VFloat limit_price) = true →
  always request_ok
    (bot (place_stop_limit_order client symbol side quantity stop_price
                                 limit_price "GTC")).
Proof.
  intros [[Hq%negb_true_iff _]%andb_true_iff Hp%negb_true_iff]%andb_true_iff.
  apply bot_requests_ok. intros w.
  destruct (order_submissions client symbol side quantity 0 stop_price
                              limit_price "GTC" w)
    as (_ & _ & [->|(-> & Hside)]); [constructor|].
  apply Forall_singleton. split; [|split].
  - unfold stop_limit_params.
    destruct (side_is_buy_or_sell _ Hside) as [-> | ->]; simplify_map_eq; by eauto.
  - exists quantity. unfold stop_limit_params. by simplify_map_eq.
  - right. unfold stop_limit_params. split; [by simplify_map_eq|].
    exists limit_price. by simplify_map_eq.
Qed.

Lemma account_balance_ok :
  always request_ok (bot (get_account_balance client py_float)).
Proof.
  apply bot_requests_ok. intros w. unfold get_account_balance. run_bot.
  destruct (futures_account client w) as [[account|e] w']; cbn; [|constructor].
  destruct (py_get account "totalWalletBalance" VNone); cbn; [|constructor].
  destruct (py_get account "availableBalance" VNone); cbn; [|constructor].
  destruct (py_get account "assets" (VList [])) as [listed|]; cbn;
    [|constructor].
  destruct (py_iter listed) as [entries|]; cbn; [|constructor].
  destruct (positive_assets py_float entries); cbn; constructor.
Qed.

Lemma position_info_ok (symbol : option string) :
  always request_ok (bot (get_position_info client py_float symbol)).
Proof.
  apply bot_requests_ok. intros w. unfold get_position_info. run_bot.
  destruct (futures_position_information client _ w) as [[reply|e] w']; cbn;
    [|constructor].
  destruct (py_iter reply) as [entries|]; cbn; [|constructor].
  destruct (active_positions py_float entries); cbn; constructor.
Qed.

Lemma test_connection_ok : always request_ok (bot (_test_connection client)).
Proof.
  apply bot_requests_ok. intros w. unfold _test_connection. run_bot.
  destruct (futures_account client w) as [[account|e] w']; cbn; [|constructor].
  destruct (py_get account "totalWalletBalance" (VStr "N/A")); cbn; constructor.
Qed.

Ltac orderly :=
  cbv zeta;
  repeat first
    [ by apply market_order_ok
    | by apply limit_order_ok
    | by apply stop_limit_order_ok
    | apply account_balance_ok
    | apply position_info_ok
    | apply test_connection_ok
    | always_step
    | exact I ].

Lemma orderly_market_order_dialog (k : nat) :
  always request_ok (market_order_dialog client py_float py_int k).
Proof. unfold market_order_dialog. orderly. Qed.

Lemma orderly_limit_order_dialog (k : nat) :
  always request_ok (limit_order_dialog client py_float py_int k).
Proof. unfold limit_order_dialog. orderly. Qed.

Lemma orderly_stop_limit_order_dialog (k : nat) :
  always request_ok (stop_limit_order_dialog client py_float py_int k).
Proof. unfold stop_limit_order_dialog. orderly. Qed.

Lemma orderly_account_balance_dialog :
  always request_ok (account_balance_dialog client py_float).
Proof. unfold account_balance_dialog. orderly. Qed.

Lemma orderly_open_orders_dialog (k : nat) :
  always request_ok (open_orders_dialog desk py_float py_int k).
Proof. unfold open_orders_dialog. orderly. Qed.

Lemma orderly_positions_dialog :
  always request_ok (positions_dialog client py_float).
Proof. unfold positions_dialog. orderly. Qed.

Lemma orderly_cancel_order_dialog (k : nat) :
  always request_ok (cancel_order_dialog desk py_float py_int k).
Proof.
  unfold cancel_order_dialog. orderly.
  match goal with
  | Htruthy : py_truthy (VInt ?n) = true |- _ =>
      by apply negb_true_iff, Z.eqb_neq in Htruthy
  end.
Qed.

Lemma orderly_menu_round (k : nat) :
  always request_ok (menu_round client desk py_float py_int k).
Proof.
  unfold menu_round, menu_choice.
  apply always_bind; [unfold print_menu; orderly|intros _].
  apply always_bind; [orderly|intros choice].
  apply always_bind; [|intros leave; orderly].
  repeat match goal with
         | |- always _ (if ?b then _ else _) => destruct b
         end;
    try (apply always_bind; [|intros ?; apply always_ret]);
    first [ apply orderly_market_order_dialog
          | apply orderly_limit_order_dialog
          | apply orderly_stop_limit_order_dialog
          | apply orderly_account_balance_dialog
          | apply orderly_open_orders_dialog
          | apply orderly_positions_dialog
          | apply orderly_cancel_order_dialog
          | orderly ].
Qed.

Lemma orderly_menu_loop (k fuel : nat) :
  always request_ok (menu_loop client desk py_float py_int k fuel).
Proof.
  induction fuel as [|fuel IH]; cbn [menu_loop]; [apply always_unfinished|].
  apply always_bind; [apply orderly_menu_round|].
  intros [|]; [done|apply always_ret].
Qed.

(** X18. What a session asks of the exchange is well formed, whatever is
    typed: every order submitted has side BUY or SELL and a quantity that is
    not zero; every limit and stop-limit order has a price that is not zero
    and the time in force GTC, the menu asking for none; no cancellation
    carries the order id 0; and the client is built for the test network,
    from credentials that are not empty. *)
Theorem session_requests_are_well_formed
    (fuel : nat) (API_KEY SECRET_KEY : option string) (s : console World) :
  Forall request_ok
         (actions (main client desk py_float py_int fuel API_KEY SECRET_KEY s)).
Proof.
  revert s. change (always request_ok
                      (main client desk py_float py_int fuel API_KEY SECRET_KEY)).
  unfold main.
  apply always_bind; [orderly|intros _].
  apply always_bind; [orderly|intros _].
  destruct API_KEY as [api_key|]; [|orderly].
  destruct SECRET_KEY as [secret_key|]; [|orderly].
  destruct (_ || _) eqn:Hkeys; [orderly|].
  apply orb_false_iff in Hkeys as [Hkey Hsecret].
  apply negb_false_iff, negb_true_iff, bool_decide_eq_false in Hkey, Hsecret.
  apply always_attempt; [|intros e; orderly].
  apply always_bind; [unfold __init__; orderly; done|intros _].
  apply always_bind; [orderly|intros _].
  apply orderly_menu_loop.
Qed.

End Requests.

(** ** The operations behind the menu *)

Section Operations.
Context {World : Type} (client : Client World) (desk : Desk World).
Context (py_float : value → outcome float) (py_int : value → outcome Z).

(** X19. [BinanceBot(...)] passes on what goes wrong: when the constructor
    of the client raises, [__init__] raises the same exception after one
    error record, and the account is not queried; when the account query of
    the connection test raises, the same exception is raised after two error
    records, one of the test and one of [__init__]. When the account query
    answers with a dict, [__init__] returns, and the balance logged is the
    text N/A if the dict has no total. Standard input is not touched. *)
Theorem init_passes_failures_on
    (api_key api_secret : string) (testnet : bool) (s : console World) :
  let r := __init__ client desk api_key api_secret testnet s in
  let url := "https://testnet.binancefuture.com" in
  let greeting :=
    [NewClient api_key api_secret testnet; SetFuturesUrl url;
     Bot (Log INFO [Lit "BinanceBot is Initialized!"]);
     Bot (Log INFO [Lit "Using ";
                    Fmt (VStr (if testnet then "TestNet" else "Main Account"))])] in
  (∀ e w1,
     new_client desk api_key api_secret testnet (exchange s) = (Raise e, w1) →
     r = Exec (Raised e)
              [NewClient api_key api_secret testnet;
               Bot (Log ERROR [Lit "Falied to initialze BinanceBot: "; StrExn e])]
              (Console (stdin s) w1)) ∧
  (∀ w1 e w2,
     new_client desk api_key api_secret testnet (exchange s) = (Ok (), w1) →
     futures_account client (set_futures_url desk url w1) = (Raise e, w2) →
     r = Exec (Raised e)
              (greeting ++
               [Bot (Call FuturesAccount);
                Bot (Log ERROR [Lit "Connection test failed: "; StrExn e]);
                Bot (Log ERROR [Lit "Falied to initialze BinanceBot: "; StrExn e])])
              (Console (stdin s) w2)) ∧
  (∀ w1 d w2,
     new_client desk api_key api_secret testnet (exchange s) = (Ok (), w1) →
     futures_account client (set_futures_url desk url w1) = (Ok (VDict d), w2) →
     r = Exec (Returned ())
              (greeting ++
               [Bot (Call FuturesAccount);
                Bot (Log INFO [Lit "Connection to Binance Futures is Succesfull!"]);
                Bot (Log INFO [Lit "Account Balance: ";
                               Fmt (default (VStr "N/A")
                                            (d !! "totalWalletBalance"))])])
              (Console (stdin s) w2)).
Proof.
  cbv zeta. unfold __init__, _test_connection. split; [|split].
  - intros e w1 Hnew. run_session. by rewrite Hnew.
  - intros w1 e w2 Hnew Haccount. run_session. rewrite Hnew. cbn.
    run_bot. by rewrite Haccount.
  - intros w1 d w2 Hnew Haccount. run_session. rewrite Hnew. cbn.
    run_bot. by rewrite Haccount.
Qed.

(** X20. [get_open_orders] and [cancel_order] never raise, and each makes
    one call of the client followed by one log record. The query is scoped to
    the upper-case symbol, and is unscoped for [None] and for the empty
    string; it returns the reply itself, after the record of its length,
    exactly when the call answers with a reply that has a length, and [None]
    after the error record of the exception when the call raises or the
    reply has no length. The cancellation is asked for
    the upper-case symbol and the id given, and returns the reply as it is. *)
Theorem open_order_operations_never_raise
    (symbol : option string) (name : string) (order_id : Z) (s : console World) :
  let q := get_open_orders desk symbol s in
  let c := cancel_order desk name order_id s in
  (∃ scope record,
     actions q = [FuturesGetOpenOrders scope; Bot record] ∧
     after q = Console (stdin s) (futures_get_open_orders desk scope (exchange s)).2 ∧
     (symbol = None ∨ symbol = Some "" → scope = None) ∧
     (∀ x, symbol = Some x → x ≠ "" → scope = Some (upper x)) ∧
     match (futures_get_open_orders desk scope (exchange s)).1 with
     | Ok orders =>
         match py_len orders with
         | Ok count =>
             outcome_of q = Returned orders ∧
             record = Log INFO [Lit "Retrieved "; Fmt (VInt count);
                                Lit " open orders"]
         | Raise e =>
             outcome_of q = Returned VNone ∧
             record = Log ERROR [Lit "Error getting open orders: "; StrExn e]
         end
     | Raise e =>
         outcome_of q = Returned VNone ∧
         record = Log ERROR [Lit "Error getting open orders: "; StrExn e]
     end) ∧
  (∃ record,
     actions c = [FuturesCancelOrder (upper name) order_id; Bot record] ∧
     after c = Console (stdin s)
                       (futures_cancel_order desk (upper name) order_id (exchange s)).2 ∧
     ((∃ reply,
         (futures_cancel_order desk (upper name) order_id (exchange s)).1 = Ok reply ∧
         outcome_of c = Returned reply ∧
         record = Log INFO [Lit "Order "; Fmt (VInt order_id);
                            Lit " cancelled successfully"]) ∨
      (∃ e,
         (futures_cancel_order desk (upper name) order_id (exchange s)).1 = Raise e ∧
         outcome_of c = Returned VNone ∧
         record = Log ERROR [Lit "Error cancelling order: "; StrExn e]))).
Proof.
  cbv zeta. split.
  - unfold get_open_orders.
    set (scope := match symbol with
                  | Some x => if bool_decide (x = "") then None else Some (upper x)
                  | None => None
                  end).
    assert (Hnone : symbol = None ∨ symbol = Some "" → scope = None).
    { intros [-> | ->]; done. }
    assert (Hsome : ∀ x, symbol = Some x → x ≠ "" → scope = Some (upper x)).
    { intros x -> Hx. unfold scope. by rewrite bool_decide_eq_false_2. }
    assert (Hcall :
      match symbol with
      | Some x =>
          if bool_decide (x = "") then
            request (FuturesGetOpenOrders None) (futures_get_open_orders desk None)
          else
            request (FuturesGetOpenOrders (Some (upper x)))
                    (futures_get_open_orders desk (Some (upper x)))
      | None =>
          request (FuturesGetOpenOrders None) (futures_get_open_orders desk None)
      end = request (FuturesGetOpenOrders scope)
                    (futures_get_open_orders desk scope)).
    { unfold scope. destruct symbol as [x|]; [|done]. by destruct (bool_decide _). }
    rewrite Hcall. clearbody scope. exists scope. run_session.
    destruct (futures_get_open_orders desk scope (exchange s))
      as [[orders|e] w']; cbn; [|eexists; repeat split; by eauto].
    destruct (py_len orders) as [count|e]; cbn;
      eexists; repeat split; by eauto.
  - unfold cancel_order. run_session.
    destruct (futures_cancel_order desk (upper name) order_id (exchange s))
      as [[reply|e] w']; cbn; eexists; repeat split; by eauto 10.
Qed.

(** X21. Without credentials there is no session: when either of [API_KEY]
    and [SECRET_KEY] is unset or empty, [main] prints its banner and the
    request for credentials and returns; no client is built, nothing is
    logged and no line is read. *)
Theorem main_requires_credentials
    (fuel : nat) (API_KEY SECRET_KEY : option string) (s : console World) :
  API_KEY = None ∨ API_KEY = Some "" ∨
  SECRET_KEY = None ∨ SECRET_KEY = Some "" →
  main client desk py_float py_int fuel API_KEY SECRET_KEY s =
    Exec (Returned ())
         [Print [Lit (String "010" " Welcome to Binance Futures Trading bot")];
          Print [Lit rule];
          Print [Lit "API credentials are required. Please add them in your .env file."]]
         s.
Proof.
  intros Hmissing. unfold main.
  destruct API_KEY as [api_key|]; [|done].
  destruct SECRET_KEY as [secret_key|]; [|done].
  assert (negb (py_truthy (VStr api_key)) || negb (py_truthy (VStr secret_key))
          = true) as ->; [|done].
  destruct Hmissing as [?|[[= ->]|[?|[= ->]]]]; try done.
  cbn. by rewrite orb_true_r.
Qed.

(** X22. A bot that cannot be built ends the session before it starts: with
    both credentials set, when the constructor of the client raises, [main]
    logs the failure twice, prints it and returns; the menu is never shown
    and no line is read. *)
Theorem main_stops_when_the_client_fails
    (fuel : nat) (api_key secret_key : string) (s : console World)
    (e : exn) (w1 : World) :
  api_key ≠ "" → secret_key ≠ "" →
  new_client desk api_key secret_key true (exchange s) = (Raise e, w1) →
  main client desk py_float py_int fuel (Some api_key) (Some secret_key) s =
    Exec (Returned ())
         [Print [Lit (String "010" " Welcome to Binance Futures Trading bot")];
          Print [Lit rule];
          NewClient api_key secret_key true;
          Bot (Log ERROR [Lit "Falied to initialze BinanceBot: "; StrExn e]);
          Bot (Log ERROR [Lit "Error: "; StrExn e]);
          Print [Lit "An Error occured in the main program: "; StrExn e]]
         (Console (stdin s) w1).
Proof.
  intros Hkey Hsecret Hnew. unfold main.
  cbn [py_truthy]. rewrite !bool_decide_eq_false_2 by done. cbn [negb orb].
  unfold __init__. run_session. by rewrite Hnew.
Qed.

End Operations.

(** ** The dialogues of the menu *)

Section Dialogues.
Context {World : Type} (client : Client World) (desk : Desk World).
Context (py_float : value → outcome float) (py_int : value → outcome Z).

#[local] Arguments place_market_order : simpl never.
#[local] Arguments place_limit_order : simpl never.
#[local] Arguments get_open_orders : simpl never.

(** X23. The market-order dialogue cannot fail once its three lines are
    read. A quantity of zero is dropped without a word: the bot is not
    called and nothing is logged. Any other quantity goes to
    [place_market_order] with symbol and side in upper case; an order that
    comes back is shown with its id and its status, which are there, and
    [None] is shown as nothing. *)
Theorem market_order_dialog_run
    (k : nat) (symbol side q : string) (rest : list string) (w : World)
    (quantity : float) :
  (0 < k)%nat → py_float (VStr q) = Ok quantity →
  let r := market_order_dialog client py_float py_int k
                               (Console (symbol :: side :: q :: rest) w) in
  let m := place_market_order client (upper symbol) (upper side) quantity w in
  let asked :=
    [Print [Lit (String "010" "--- MARKET ORDER ---")];
     Input "Enter symbol: "; Input "Enter side (BUY/SELL): ";
     Input "Enter quantity: "] in
  ((quantity =? 0)%float = true →
   r = Exec (Returned ()) asked (Console rest w)) ∧
  ((quantity =? 0)%float = false →
   outcome_of r = Returned () ∧ after r = Console rest (final m) ∧
   match result m with
   | Ok (Some order) =>
       ∃ d order_id order_status,
         order = VDict d ∧ d !! "orderId" = Some order_id ∧
         d !! "status" = Some order_status ∧
         actions r =
           asked ++ (Bot <$> trace m) ++
           [Print [Lit (String "010" "Order executed successfully!")];
            Print [Lit "Order ID: "; Fmt order_id];
            Print [Lit "Status: "; Fmt order_status]]
   | _ => actions r = asked ++ (Bot <$> trace m)
   end).
Proof.
  intros Hk Hq. cbv zeta. destruct k as [|k]; [lia|].
  unfold market_order_dialog. do 3 run_session. rewrite Hq. cbn.
  split; intros Hzero; rewrite Hzero; cbn; [done|].
  destruct (returned_orders_have_keys client (upper symbol) (upper side)
              quantity 0 "" w) as [(o & Hresult & Hkeys) _].
  destruct (place_market_order client (upper symbol) (upper side) quantity w)
    as [result t w']; cbn in *. subst result.
  destruct o as [order|]; cbn; [|by rewrite app_nil_r].
  destruct (Hkeys order eq_refl) as (d & order_id & order_status & -> & Hid & Hst).
  cbn. rewrite bool_decide_eq_false_2; cbn.
  - rewrite !py_subscript_dict, Hid, Hst. cbn.
    repeat split. exists d, order_id, order_status. by repeat split.
  - intros Hsize%map_size_empty_inv. by rewrite Hsize in Hid.
Qed.

(** X24. The listing of open orders shows nothing for an empty reply, and
    gives up on a malformed one: when the exchange answers with the empty
    list the dialogue ends after the log record, without a line printed; when
    the first order of the reply has no ["orderId"], the dialogue raises
    [KeyError], which nothing catches before the handler of [main]. The
    query is made for the line typed, in upper case, or for all symbols when
    the line is empty. *)
Theorem open_orders_dialog_edges
    (k : nat) (line : string) (rest : list string) (w w' : World) :
  let r := open_orders_dialog desk py_float py_int k (Console (line :: rest) w) in
  let scope := if bool_decide (line = "") then None else Some (upper line) in
  let asked (count : Z) :=
    [Print [Lit (String "010" "--- OPEN ORDERS ---")];
     Input "Enter symbol (or press Enter for all): ";
     FuturesGetOpenOrders scope;
     Bot (Log INFO [Lit "Retrieved "; Fmt (VInt count); Lit " open orders"])] in
  (0 < k)%nat →
  (futures_get_open_orders desk scope w = (Ok (VList []), w') →
   r = Exec (Returned ()) (asked 0) (Console rest w')) ∧
  (∀ d others,
     futures_get_open_orders desk scope w = (Ok (VList (VDict d :: others)), w') →
     d !! "orderId" = None →
     r = Exec (Raised (KeyError "orderId"))
              (asked (Z.of_nat (S (length others))))
              (Console rest w')).
Proof.
  cbv zeta. intros Hk. destruct k as [|k]; [lia|].
  unfold open_orders_dialog, get_open_orders. do 3 run_session.
  assert (Hempty : bool_decide (upper line = "") = bool_decide (line = "")).
  { by destruct line. }
  rewrite Hempty.
  destruct (bool_decide (line = "")) eqn:Hline; cbn.
  - split; [intros ->; done|]. intros d others -> Hid. cbn.
    rewrite (proj2 (Z.eqb_neq _ 0)) by lia. unfold py_iter. cbn.
    rewrite py_subscript_dict, Hid. done.
  - rewrite upper_idempotent, Hempty. cbn.
    split; [intros ->; done|]. intros d others -> Hid. cbn.
    rewrite (proj2 (Z.eqb_neq _ 0)) by lia. unfold py_iter. cbn.
    rewrite py_subscript_dict, Hid. done.
Qed.

End Dialogues.

(** ** How a session ends *)

Section Ending.
Context {World : Type} (client : Client World) (desk : Desk World).
Context (py_float : value → outcome float) (py_int : value → outcome Z).

#[local] Arguments market_order_dialog : simpl never.
#[local] Arguments limit_order_dialog : simpl never.
#[local] Arguments stop_limit_order_dialog : simpl never.
#[local] Arguments account_balance_dialog : simpl never.
#[local] Arguments open_orders_dialog : simpl never.
#[local] Arguments positions_dialog : simpl never.
#[local] Arguments cancel_order_dialog : simpl never.

(** The last two actions of a session that the user ends. *)
Lemma menu_round_leaves (k : nat) (s : console World) :
  outcome_of (menu_round client desk py_float py_int k s) = Returned false →
  ∃ rest pre,
    stdin s = "8" :: rest ∧
    actions (menu_round client desk py_float py_int k s) =
      pre ++ [Print [Lit (String "010" "Thank you for using the trading bot!")];
              Bot (Log INFO [Lit "Bot session ended by user"])].
Proof.
  destruct s as [[|line rest] w]; destruct k as [|k];
    unfold menu_round, menu_choice, print_menu; do 3 run_session; try done.
  repeat (match goal with
          | |- context [bool_decide (line = ?c)] =>
              destruct (bool_decide_reflect (line = c))
          end; cbn);
    try (destruct (market_order_dialog client py_float py_int (S k) _)
           as [[[]|err|] t [[|l r] w']]; cbn; done);
    try (destruct (limit_order_dialog client py_float py_int (S k) _)
           as [[[]|err|] t [[|l r] w']]; cbn; done);
    try (destruct (stop_limit_order_dialog client py_float py_int (S k) _)
           as [[[]|err|] t [[|l r] w']]; cbn; done);
    try (destruct (account_balance_dialog client py_float _)
           as [[[]|err|] t [[|l r] w']]; cbn; done);
    try (destruct (open_orders_dialog desk py_float py_int (S k) _)
           as [[[]|err|] t [[|l r] w']]; cbn; done);
    try (destruct (positions_dialog client py_float _)
           as [[[]|err|] t [[|l r] w']]; cbn; done);
    try (destruct (cancel_order_dialog desk py_float py_int (S k) _)
           as [[[]|err|] t [[|l r] w']]; cbn; done).
  - subst line. intros _. exists rest.
    eexists [_; _; _; _; _; _; _; _; _; _; _; _; _]. split; reflexivity.
  - destruct rest; cbn; done.
Qed.

Lemma menu_loop_leaves (k fuel : nat) (s : console World) :
  (length (stdin s) < k)%nat →
  outcome_of (menu_loop client desk py_float py_int k fuel s) = Returned () →
  "8" ∈ stdin s ∧
  ∃ pre,
    actions (menu_loop client desk py_float py_int k fuel s) =
      pre ++ [Print [Lit (String "010" "Thank you for using the trading bot!")];
              Bot (Log INFO [Lit "Bot session ended by user"])].
Proof.
  revert s. induction fuel as [|fuel IH]; intros s Hk; [done|].
  cbn [menu_loop]. unfold mbind, P_bind.
  destruct (menu_round_reads client desk py_float py_int k s Hk)
    as [_ Hsuffix].
  pose proof (menu_round_leaves k s) as Hleaves.
  destruct (menu_round client desk py_float py_int k s)
    as [[[|]|e|] t s']; cbn in *; [| |done..].
  - specialize (IH s').
    destruct (menu_loop client desk py_float py_int k fuel s')
      as [o t' s'']; cbn in *.
    intros Hout. destruct IH as [Hin [pre ->]]; [|done|].
    { apply suffix_length in Hsuffix. lia. }
    split.
    + destruct Hsuffix as [skipped ->]. apply elem_of_app. by right.
    + exists (t ++ pre). by rewrite app_assoc.
  - intros _. destruct (Hleaves eq_refl) as (rest & pre & -> & ->).
    split; [by left|]. exists pre. by rewrite app_nil_r.
Qed.

(** X25. A session ends in one of two ways. Either the user leaves it:
    the line 8 was read as a choice, and the last two actions are the
    farewell and the record "Bot session ended by user". Or an exception
    ends it, the end of the input included: the last two actions are the
    error record and the message of the handler of [main], for the same
    exception. There is no third way: a session whose input has no line 8
    ends in the handler. *)
Theorem session_ends
    (fuel : nat) (api_key secret_key : string) (s : console World) :
  (length (stdin s) < fuel)%nat → api_key ≠ "" → secret_key ≠ "" →
  let r := main client desk py_float py_int fuel (Some api_key) (Some secret_key) s in
  ("8" ∈ stdin s ∧
   ∃ pre,
     actions r =
       pre ++ [Print [Lit (String "010" "Thank you for using the trading bot!")];
               Bot (Log INFO [Lit "Bot session ended by user"])]) ∨
  (∃ pre e,
     actions r =
       pre ++ [Bot (Log ERROR [Lit "Error: "; StrExn e]);
               Print [Lit "An Error occured in the main program: "; StrExn e]]).
Proof.
  intros Hfuel Hkey Hsecret. cbv zeta. unfold main.
  cbn [py_truthy]. rewrite !bool_decide_eq_false_2 by done. cbn [negb orb].
  pose proof (settled_init client desk fuel api_key secret_key true s Hfuel)
    as [Hout Hinit].
  unfold mbind, P_bind, print, logger, attempt. cbn.
  destruct (__init__ client desk api_key secret_key true s)
    as [[[]|e|] t s']; cbn in *.
  - pose proof (menu_loop_finishes client desk py_float py_int fuel fuel s')
      as Hfinishes.
    pose proof (menu_loop_leaves fuel fuel s') as Hleaves.
    destruct (menu_loop client desk py_float py_int fuel fuel s')
      as [[[]|e|] t' s'']; cbn in *.
    + left. destruct Hleaves as [Hin [pre ->]]; [|done|].
      { apply suffix_length in Hinit. lia. }
      split.
      * destruct Hinit as [skipped ->]. apply elem_of_app. by right.
      * eexists (_ :: _ :: t ++ _ :: pre). cbn.
        by rewrite <- app_assoc.
    + right. eexists (_ :: _ :: t ++ _ :: t'), e. cbn.
      by rewrite <- !app_assoc.
    + destruct Hfinishes as [Hloop _]; [| |done];
        apply suffix_length in Hinit; lia.
  - right. eexists (_ :: _ :: t), e. cbn. done.
  - done.
Qed.

End Ending.

Section BalanceDisplay.
Context {World : Type} (client : Client World).
Context (py_float : value → outcome float).

Lemma positive_assets_shape (entries assets : list value) :
  positive_assets py_float entries = Ok assets → Forall shown_asset assets.
Proof.
  revert assets. induction entries as [|a rest IH]; intros assets.
  - intros [= <-]. constructor.
  - cbn [positive_assets]. unfold mbind, outcome_bind, mret, outcome_ret.
    destruct (py_subscript a "walletBalance") as [wallet|]; [|discriminate].
    destruct (py_float wallet) as [amount|]; [|discriminate].
    destruct (0 <? amount)%float; [|by apply IH].
    destruct (py_subscript a "asset") as [name|]; [|discriminate].
    destruct (py_subscript a "availableBalance") as [available|];
      [|discriminate].
    destruct (positive_assets py_float rest) as [others|]; [|discriminate].
    intros [= <-]. constructor; [by eexists _, _, _|by apply IH].
Qed.

Lemma account_snapshot_shape (w : World) :
  ∃ o, result (get_account_balance client py_float w) = Ok o ∧
       ∀ balance, o = Some balance →
         ∃ total available assets,
           balance = VDict (<["totalWalletBalance" := total]>
                              (<["availableBalance" := available]>
                                 (<["assets" := VList assets]> ∅))) ∧
           Forall shown_asset assets.
Proof.
  unfold get_account_balance. run_bot.
  destruct (futures_account client w) as [[account|e] w']; cbn;
    [|by eexists].
  destruct (py_get account "totalWalletBalance" VNone); cbn; [|by eexists].
  destruct (py_get account "availableBalance" VNone); cbn; [|by eexists].
  destruct (py_get account "assets" (VList [])) as [listed|]; cbn;
    [|by eexists].
  destruct (py_iter listed) as [entries|]; cbn; [|by eexists].
  destruct (positive_assets py_float entries) as [assets|] eqn:Hassets; cbn;
    [|by eexists].
  eexists. split; [done|]. intros balance [= <-].
  eexists _, _, _. split; [done|]. by eapply positive_assets_shape.
Qed.

Lemma for_each_returns {A : Type} (l : list A) (body : A → P World unit) :
  Forall (λ x, ∀ s, ∃ t, body x s = Exec (Returned ()) t s) l →
  ∀ s, ∃ t, for_each l body s = Exec (Returned ()) t s.
Proof.
  induction 1 as [|x l Hx _ IH]; intros s; cbn [for_each].
  - by eexists.
  - unfold mbind, P_bind. destruct (Hx s) as [t ->].
    destruct (IH s) as [t' ->]. by eexists.
Qed.

(** X26. The display of the account cannot fail: whatever the exchange
    answers or raises, the balance dialogue returns, and reads no line. What
    [get_account_balance] returns has every key the display asks for, in the
    snapshot and in each of its assets. *)
Theorem account_balance_dialog_returns (s : console World) :
  outcome_of (account_balance_dialog client py_float s) = Returned () ∧
  stdin (after (account_balance_dialog client py_float s)) = stdin s.
Proof.
  unfold account_balance_dialog. run_session.
  destruct (account_snapshot_shape (exchange s)) as (o & Hresult & Hshape).
  destruct (get_account_balance client py_float (exchange s))
    as [result t w']; cbn in *. subst result. cbn.
  destruct o as [balance|]; cbn; [|done].
  destruct (Hshape balance eq_refl)
    as (total & available & assets & -> & Hassets).
  cbn. rewrite bool_decide_eq_false_2; cbn.
  - rewrite !py_subscript_dict. simplify_map_eq. cbn.
    unfold py_iter. cbn.
    edestruct (for_each_returns assets) as [t' ->]; [|done].
    eapply Forall_impl; [exact Hassets|].
    intros a (name & wallet & avail & ->) s'. run_session.
    rewrite !py_subscript_dict. simplify_map_eq. cbn. by eexists.
  - intros Hsize%map_size_empty_inv.
    by apply (f_equal (lookup "assets")) in Hsize; simplify_map_eq.
Qed.

End BalanceDisplay.

(** * Sessions against the scripted exchange *)

(** X14, a quantity typed at the third attempt. *)
Lemma get_user_input_retries_witness :
  get_user_input decimal_float decimal_int 3 "Enter quantity: " type_float
                 (Console ["abc"; ""; "0.5"; "8"] testnet) =
    Exec (Returned 0.5%float)
         [Input "Enter quantity: "; Print [Lit "Invalid input."];
          Input "Enter quantity: "; Print [Lit "Invalid input."];
          Input "Enter quantity: "]
         (Console ["8"] testnet).
Proof.
  apply (get_user_input_retries decimal_float decimal_int 3 "Enter quantity: "
           type_float ["abc"; ""] "0.5" ["8"] 0.5%float testnet).
  - cbn. lia.
  - repeat constructor; eexists; vm_compute; reflexivity.
  - vm_compute. reflexivity.
Defined.

(** X15, an order id that is never typed. *)
Lemma get_user_input_end_of_input_witness :
  get_user_input decimal_float decimal_int 2 "Enter order ID: " type_int
                 (Console ["12a"] testnet) =
    Exec (Raised EOFError)
         [Input "Enter order ID: "; Print [Lit "Invalid input."];
          Input "Enter order ID: "]
         (Console [] testnet).
Proof.
  refine (proj1 (get_user_input_end_of_input decimal_float decimal_int 2
                   "Enter order ID: " type_int ["12a"] testnet _ _)).
  - cbn. lia.
  - repeat constructor; eexists; vm_compute; reflexivity.
Defined.

(** X16, a session that shows the balance and is left. *)
Lemma main_returns_witness :
  outcome_of (main scripted counter decimal_float decimal_int 4
                   (Some "key") (Some "secret")
                   (Console ["4"; ""; "8"] testnet)) = Returned ().
Proof.
  refine (proj1 (main_returns scripted counter decimal_float decimal_int 4
                   (Some "key") (Some "secret")
                   (Console ["4"; ""; "8"] testnet) _)).
  cbn. lia.
Defined.

(** X19, the bot built on the test network. *)
Lemma init_passes_failures_on_witness :
  __init__ scripted counter "key" "secret" true (Console ["8"] testnet) =
    Exec (Returned ())
         [NewClient "key" "secret" true;
          SetFuturesUrl "https://testnet.binancefuture.com";
          Bot (Log INFO [Lit "BinanceBot is Initialized!"]);
          Bot (Log INFO [Lit "Using "; Fmt (VStr "TestNet")]);
          Bot (Call FuturesAccount);
          Bot (Log INFO [Lit "Connection to Binance Futures is Succesfull!"]);
          Bot (Log INFO [Lit "Account Balance: "; Fmt (VStr "15000.00000000")])]
         (Console ["8"] testnet).
Proof.
  pose proof (init_passes_failures_on scripted counter "key" "secret" true
                (Console ["8"] testnet)) as H.
  cbv zeta in H. destruct H as (_ & _ & H).
  rewrite (H testnet _ testnet eq_refl eq_refl). reflexivity.
Defined.

(** X21, a session without a secret. *)
Lemma main_requires_credentials_witness :
  main scripted counter decimal_float decimal_int 4 (Some "key") None
       (Console ["1"; "8"] testnet) =
    Exec (Returned ())
         [Print [Lit (String "010" " Welcome to Binance Futures Trading bot")];
          Print [Lit rule];
          Print [Lit "API credentials are required. Please add them in your .env file."]]
         (Console ["1"; "8"] testnet).
Proof.
  apply (main_requires_credentials scripted counter decimal_float decimal_int 4
           (Some "key") None (Console ["1"; "8"] testnet)).
  right. right. by left.
Defined.

(** X22, credentials that the exchange turns down. *)
Lemma main_stops_when_the_client_fails_witness :
  outcome_of (main scripted closed decimal_float decimal_int 4
                   (Some "key") (Some "secret") (Console ["1"; "8"] testnet)) =
    Returned () ∧
  after (main scripted closed decimal_float decimal_int 4
              (Some "key") (Some "secret") (Console ["1"; "8"] testnet)) =
    Console ["1"; "8"] testnet.
Proof.
  rewrite (main_stops_when_the_client_fails scripted closed decimal_float
             decimal_int 4 "key" "secret" (Console ["1"; "8"] testnet)
             (BinanceAPIException 401 (-2015)
                "Invalid API-key, IP, or permissions for action.")
             testnet); [by split|done|done|reflexivity].
Defined.

(** X23, a market order placed from the menu. *)
Lemma market_order_dialog_run_witness :
  outcome_of (market_order_dialog scripted decimal_float decimal_int 1
                (Console ["btcusdt"; "buy"; "0.01"; "8"] testnet)) = Returned () ∧
  market_order_dialog scripted decimal_float decimal_int 1
                      (Console ["btcusdt"; "buy"; "0"; "8"] testnet) =
    Exec (Returned ())
         [Print [Lit (String "010" "--- MARKET ORDER ---")];
          Input "Enter symbol: "; Input "Enter side (BUY/SELL): ";
          Input "Enter quantity: "]
         (Console ["8"] testnet).
Proof.
  split.
  - pose proof (market_order_dialog_run scripted decimal_float decimal_int 1
                  "btcusdt" "buy" "0.01" ["8"] testnet 0.01%float) as H.
    cbv zeta in H. destruct H as [_ H]; [lia|vm_compute; reflexivity|].
    destruct H as [H _]; [vm_compute; reflexivity|exact H].
  - pose proof (market_order_dialog_run scripted decimal_float decimal_int 1
                  "btcusdt" "buy" "0" ["8"] testnet 0%float) as H.
    cbv zeta in H. destruct H as [H _]; [lia|vm_compute; reflexivity|].
    apply H. vm_compute. reflexivity.
Defined.

(** X24, no open order, and an open order without an id. *)
Lemma open_orders_dialog_edges_witness :
  actions (open_orders_dialog counter decimal_float decimal_int 1
             (Console [""; "8"] testnet)) =
    [Print [Lit (String "010" "--- OPEN ORDERS ---")];
     Input "Enter symbol (or press Enter for all): ";
     FuturesGetOpenOrders None;
     Bot (Log INFO [Lit "Retrieved "; Fmt (VInt 0); Lit " open orders"])] ∧
  outcome_of (open_orders_dialog sloppy decimal_float decimal_int 1
                (Console ["btcusdt"; "8"] testnet)) =
    Raised (KeyError "orderId").
Proof.
  split.
  - pose proof (open_orders_dialog_edges counter decimal_float decimal_int 1
                  "" ["8"] testnet testnet) as H.
    cbv zeta in H. destruct H as [H _]; [lia|]. by rewrite H.
  - pose proof (open_orders_dialog_edges sloppy decimal_float decimal_int 1
                  "btcusdt" ["8"] testnet testnet) as H.
    cbv zeta in H. destruct H as [_ H]; [lia|].
    by rewrite (H (<["symbol" := VStr "BTCUSDT"]> (<["side" := VStr "BUY"]> ∅))
                  [] eq_refl eq_refl).
Defined.

(** X25, a session that is left at once, and one whose input runs out. *)
Lemma session_ends_witness :
  (∃ pre,
     actions (main scripted counter decimal_float decimal_int 2
                   (Some "key") (Some "secret") (Console ["8"] testnet)) =
       pre ++ [Print [Lit (String "010" "Thank you for using the trading bot!")];
               Bot (Log INFO [Lit "Bot session ended by user"])]) ∧
  (∃ pre e,
     actions (main scripted counter decimal_float decimal_int 2
                   (Some "key") (Some "secret") (Console ["9"] testnet)) =
       pre ++ [Bot (Log ERROR [Lit "Error: "; StrExn e]);
               Print [Lit "An Error occured in the main program: "; StrExn e]]).
Proof.
  split.
  - destruct (session_ends scripted counter decimal_float decimal_int 2
                "key" "secret" (Console ["8"] testnet))
      as [[_ H]|(pre & e & H)]; [cbn; lia|done|done|exact H|].
    apply (f_equal (@last action)) in H. rewrite last_app in H.
    vm_compute in H. discriminate.
  - destruct (session_ends scripted counter decimal_float decimal_int 2
                "key" "secret" (Console ["9"] testnet))
      as [[Hin _]|H]; [cbn; lia|done|done| |exact H].
    apply list_elem_of_singleton in Hin. discriminate.
Defined.
